(** * ChatApp server: a shallow embedding of [server.py] and its properties

    The development follows the layout of the Python module:

    - Python text ([str.strip], UTF-8 decoding) and JSON values;
    - the insertion-ordered dictionaries behind the four global registries
      ([online_users], [users_db], [groups], [offline_messages]);
    - the coroutines of the server, written in a state-and-exception monad
      over the registries, in the order and with the names of the source;
    - the properties of the handlers and of the connection loop.

    What the embedding leaves to the platform is collected in the class
    [Platform]: the SHA-256 digest, the wall clock and the JSON parser.

    A coroutine runs from its start to its end as one step: the [await]s of
    [send_message], where the event loop could let another connection run,
    are not scheduling points here. *)

From Stdlib Require Import String Ascii List ZArith NArith Bool Lia.
From Stdlib.Strings Require Import Byte.
From Stdlib Require Import PrimFloat ListSet Permutation.
Import ListNotations.

Open Scope string_scope.
Open Scope list_scope.

(** ** Python text *)

Module PyStr.

(** A Python [str] is modelled by the UTF-8 encoding of its text, one
    [ascii] per byte, so that the literals of the source can be written as
    they are. *)

Definition code (c : ascii) : N := N_of_ascii c.

(** [str.isspace] for a single character, on its UTF-8 encoding: the code
    points U+0009..U+000D, U+001C..U+0020, U+0085, U+00A0, U+1680,
    U+2000..U+200A, U+2028, U+2029, U+202F, U+205F and U+3000. *)
Definition ws1 (a : N) : bool :=
  ((9 <=? a) && (a <=? 13) || (28 <=? a) && (a <=? 32))%N.

Definition ws2 (a b : N) : bool :=
  ((a =? 0xC2) && ((b =? 0x85) || (b =? 0xA0)))%N.

Definition ws3 (a b c : N) : bool :=
  ((a =? 0xE1) && (b =? 0x9A) && (c =? 0x80)
   || (a =? 0xE2) && (b =? 0x80)
      && ((0x80 <=? c) && (c <=? 0x8A) || (c =? 0xA8) || (c =? 0xA9) || (c =? 0xAF))
   || (a =? 0xE2) && (b =? 0x81) && (c =? 0x9F)
   || (a =? 0xE3) && (b =? 0x80) && (c =? 0x80))%N.

(** [str.lstrip()] *)
Fixpoint lstrip (s : string) : string :=
  match s with
  | EmptyString => EmptyString
  | String a s1 =>
      if ws1 (code a) then lstrip s1
      else match s1 with
           | String b s2 =>
               if ws2 (code a) (code b) then lstrip s2
               else match s2 with
                    | String c s3 =>
                        if ws3 (code a) (code b) (code c) then lstrip s3 else s
                    | EmptyString => s
                    end
           | EmptyString => s
           end
  end.

(** The same scan from the right end, on the reversed bytes: the last byte
    of an encoded character comes first. *)
Fixpoint rstrip_rev (l : list ascii) : list ascii :=
  match l with
  | [] => []
  | a :: l1 =>
      if ws1 (code a) then rstrip_rev l1
      else match l1 with
           | b :: l2 =>
               if ws2 (code b) (code a) then rstrip_rev l2
               else match l2 with
                    | c :: l3 =>
                        if ws3 (code c) (code b) (code a) then rstrip_rev l3 else l
                    | [] => l
                    end
           | [] => l
           end
  end.

(** [str.rstrip()] *)
Definition rstrip (s : string) : string :=
  string_of_list_ascii (rev (rstrip_rev (rev (list_ascii_of_string s)))).

(** [str.strip()] *)
Definition strip (s : string) : string := rstrip (lstrip s).

(** Truth value of a [str]: the empty string is false. *)
Definition truthy (s : string) : bool :=
  match s with EmptyString => false | _ => true end.

(** ** UTF-8 decoding, as [bytes.decode('utf-8')] in strict mode *)

Definition cont (b : N) : bool := ((0x80 <=? b) && (b <=? 0xBF))%N.

Definition seq2 (a b : N) : bool :=
  ((0xC2 <=? a) && (a <=? 0xDF))%N && cont b.

Definition seq3 (a b c : N) : bool :=
  cont c
  && ((a =? 0xE0) && (0xA0 <=? b) && (b <=? 0xBF)
      || (0xE1 <=? a) && (a <=? 0xEC) && cont b
      || (a =? 0xED) && (0x80 <=? b) && (b <=? 0x9F)
      || (0xEE <=? a) && (a <=? 0xEF) && cont b)%N.

Definition seq4 (a b c d : N) : bool :=
  cont c && cont d
  && ((a =? 0xF0) && (0x90 <=? b) && (b <=? 0xBF)
      || (0xF1 <=? a) && (a <=? 0xF3) && cont b
      || (a =? 0xF4) && (0x80 <=? b) && (b <=? 0x8F))%N.

Fixpoint utf8_valid (l : list N) : bool :=
  match l with
  | [] => true
  | a :: l1 =>
      if (a <? 0x80)%N then utf8_valid l1
      else match l1 with
           | b :: l2 =>
               if seq2 a b then utf8_valid l2
               else match l2 with
                    | c :: l3 =>
                        if seq3 a b c then utf8_valid l3
                        else match l3 with
                             | d :: l4 => if seq4 a b c d then utf8_valid l4 else false
                             | [] => false
                             end
                    | [] => false
                    end
           | [] => false
           end
  end.

(** [None] stands for [UnicodeDecodeError]. *)
Definition decode_utf8 (bs : list byte) : option string :=
  if utf8_valid (map Byte.to_N bs) then Some (string_of_list_byte bs) else None.

(** [int.from_bytes(bs, byteorder='big')] *)
Definition int_from_bytes_big (bs : list byte) : Z :=
  fold_left (fun acc b => (acc * 256 + Z.of_N (Byte.to_N b))%Z) bs 0%Z.

End PyStr.

(** ** JSON values *)

Set Warnings "-register-all".

Inductive json : Type :=
| JNull
| JBool (b : bool)
| JInt (n : Z)
| JFloat (x : float)
| JStr (s : string)
| JArr (items : list json)
| JObj (fields : list (string * json)).

(** ** Python dictionaries

    A [dict] keeps its keys in insertion order, and [list(d.keys())] shows
    that order to the clients; the registries are therefore association
    lists with unique keys, updated the way a [dict] is. *)

Module PyDict.
Section Dict.
Context {V : Type}.

Definition dict := list (string * V).

(** [d.get(k)] *)
Fixpoint get (k : string) (d : dict) : option V :=
  match d with
  | [] => None
  | (k', v) :: d' => if String.eqb k k' then Some v else get k d'
  end.

(** [k in d] *)
Definition mem (k : string) (d : dict) : bool :=
  match get k d with Some _ => true | None => false end.

(** [d[k] = v]: an existing key keeps its place, a new key goes last. *)
Fixpoint set (k : string) (v : V) (d : dict) : dict :=
  match d with
  | [] => [(k, v)]
  | (k', v') :: d' =>
      if String.eqb k k' then (k', v) :: d' else (k', v') :: set k v d'
  end.

(** [del d[k]], for a key that is present: its entry goes, the others keep
    their order. *)
Definition del (k : string) (d : dict) : dict :=
  filter (fun item => negb (String.eqb k (fst item))) d.

(** [list(d.keys())] *)
Definition keys (d : dict) : list string := map fst d.

(** [d.get(k, default)] *)
Definition get_default (k : string) (default : V) (d : dict) : V :=
  match get k d with Some v => v | None => default end.

End Dict.
Arguments dict V : clear implicits.
End PyDict.

(** ** The platform

    What [server.py] takes from the Python runtime and does not define:
    [hashlib.sha256(b).hexdigest()] on the UTF-8 bytes of a password, the
    successive readings of [time.time()], and [json.loads] ([None] stands
    for [json.JSONDecodeError]). *)

Class Platform : Type := {
  sha256_hexdigest : string -> string;
  clock_reading : nat -> float;
  json_loads : string -> option json
}.

(** ** Global data and connections *)

(** An [asyncio.StreamReader] and an [asyncio.StreamWriter] are named by the
    connection they belong to. *)
Definition reader := nat.
Definition writer := nat.

(** A value of [users_db]: [{"password_hash": ..., "created_time": ...}]. *)
Record user : Type := mkUser {
  password_hash : string;
  created_time : float
}.

(** The module's four dictionaries, and what the server does to the outside:
    [sent] records, in program order, every message handed to [send_message]
    with the writer it was handed to (a JSON text is kept as the value it
    serialises), [closed] the writers that were closed, and [ticks] counts the
    readings of the clock so far.

    The members of a group are a Python [set]: a list without repetition,
    visited by a loop in the order of the list (new members go last; the
    order in which Python visits a set is not specified, and no property
    below depends on it). *)
Record world : Type := mkWorld {
  online_users : PyDict.dict (reader * writer);
  users_db : PyDict.dict user;
  groups : PyDict.dict (set string);
  offline_messages : PyDict.dict (list json);
  sent : list (writer * json);
  closed : list writer;
  ticks : nat
}.

Definition with_online_users (d : PyDict.dict (reader * writer)) (w : world) : world :=
  mkWorld d (users_db w) (groups w) (offline_messages w) (sent w) (closed w) (ticks w).

Definition with_users_db (d : PyDict.dict user) (w : world) : world :=
  mkWorld (online_users w) d (groups w) (offline_messages w) (sent w) (closed w) (ticks w).

Definition with_groups (d : PyDict.dict (set string)) (w : world) : world :=
  mkWorld (online_users w) (users_db w) d (offline_messages w) (sent w) (closed w) (ticks w).

Definition with_offline_messages (d : PyDict.dict (list json)) (w : world) : world :=
  mkWorld (online_users w) (users_db w) (groups w) d (sent w) (closed w) (ticks w).

Definition with_sent (l : list (writer * json)) (w : world) : world :=
  mkWorld (online_users w) (users_db w) (groups w) (offline_messages w) l (closed w) (ticks w).

Definition with_closed (l : list writer) (w : world) : world :=
  mkWorld (online_users w) (users_db w) (groups w) (offline_messages w) (sent w) l (ticks w).

Definition with_ticks (n : nat) (w : world) : world :=
  mkWorld (online_users w) (users_db w) (groups w) (offline_messages w) (sent w) (closed w) n.

(** The state of the server at start-up. *)
Definition initial_world : world := mkWorld [] [] [] [] [] [] 0.

(** ** Coroutines as state transformers that may raise *)

Inductive exn : Type := AttributeError | KeyError.

Inductive result (A : Type) : Type :=
| Ok (a : A)
| Raise (e : exn).
Arguments Ok {A} a.
Arguments Raise {A} e.

Definition M (A : Type) : Type := world -> result A * world.

Definition ret {A : Type} (a : A) : M A := fun w => (Ok a, w).

Definition bind {A B : Type} (m : M A) (k : A -> M B) : M B :=
  fun w => match m w with
           | (Ok a, w') => k a w'
           | (Raise e, w') => (Raise e, w')
           end.

Definition raise {A : Type} (e : exn) : M A := fun w => (Raise e, w).

Definition get_world : M world := fun w => (Ok w, w).

Definition modify (f : world -> world) : M unit := fun w => (Ok tt, f w).

Declare Scope server_scope.
Delimit Scope server_scope with server.
Notation "x <- m ;; k" := (bind m (fun x => k))
  (at level 61, m at next level, right associativity) : server_scope.
Notation "m ;; k" := (bind m (fun _ => k))
  (at level 61, right associativity) : server_scope.
Open Scope server_scope.

(** [for x in l: body(x)] *)
Fixpoint for_each {A : Type} (l : list A) (body : A -> M unit) : M unit :=
  match l with
  | [] => ret tt
  | x :: l' => body x ;; for_each l' body
  end.

(** [d[k]] *)
Definition getitem {V : Type} (k : string) (d : PyDict.dict V) : M V :=
  match PyDict.get k d with
  | Some v => ret v
  | None => raise KeyError
  end.

(** [v.get(key, default)] on a decoded JSON value: only a [dict] has [get]. *)
Definition json_get (v : json) (key : string) (default : json) : M json :=
  match v with
  | JObj fields => ret (PyDict.get_default key default fields)
  | _ => raise AttributeError
  end.

(** [v.strip()] on a decoded JSON value: only a [str] has [strip]. *)
Definition json_strip (v : json) : M string :=
  match v with
  | JStr s => ret (PyStr.strip s)
  | _ => raise AttributeError
  end.

(** [data.get(key, "").strip()] *)
Definition field (data : json) (key : string) : M string :=
  v <- json_get data key (JStr "") ;; json_strip v.

(** [v == s] for a decoded JSON value [v] and a string literal [s]. *)
Definition json_eq_str (v : json) (s : string) : bool :=
  match v with
  | JStr s' => String.eqb s' s
  | _ => false
  end.

(** Truth value of the cell [current_user[0]], an [Optional[str]]. *)
Definition bound (current_user : option string) : bool :=
  match current_user with
  | Some u => PyStr.truthy u
  | None => false
  end.

(** ** The server *)

Section Server.
Context {platform : Platform}.

(** [time.time()] *)
Definition time_time : M float :=
  fun w => (Ok (clock_reading (ticks w)), with_ticks (S (ticks w)) w).

Definition hash_password (password : string) : string :=
  sha256_hexdigest password.

(** The [dict] that [create_response] serialises. [data] is [None], or a
    [dict] given by its items; [if data:] holds for a [dict] that is not
    empty. *)
Definition response_dict (msg_type status : string)
    (data : option (list (string * json))) (message : string) (timestamp : float) : json :=
  let response :=
    [("type", JStr (msg_type ++ "_response"));
     ("status", JStr status);
     ("message", JStr message);
     ("timestamp", JFloat timestamp)] in
  match data with
  | Some (item :: items) => JObj (response ++ [("data", JObj (item :: items))])
  | _ => JObj response
  end.

Definition create_response (msg_type status : string)
    (data : option (list (string * json))) (message : string) : M json :=
  t <- time_time ;;
  ret (response_dict msg_type status data message t).

(** The [dict] that [create_notification] serialises. *)
Definition notification_dict (msg_type : string) (data : list (string * json))
    (timestamp : float) : json :=
  JObj [("type", JStr msg_type); ("data", JObj data); ("timestamp", JFloat timestamp)].

Definition create_notification (msg_type : string)
    (data : list (string * json)) : M json :=
  t <- time_time ;;
  ret (notification_dict msg_type data t).

(** The message is framed and written to [writer]; a failure of the transport
    is caught and printed there, so the caller never sees one. *)
Definition send_message (wr : writer) (message : json) : M unit :=
  modify (fun w => with_sent (sent w ++ [(wr, message)]) w).

Definition broadcast_online_users_update : M unit :=
  w <- get_world ;;
  let online_list := PyDict.keys (online_users w) in
  let registered_list := PyDict.keys (users_db w) in
  notification <- create_notification "update_online_users"
    [("online_users", JArr (map JStr online_list));
     ("registered_users", JArr (map JStr registered_list))] ;;
  for_each (online_users w) (fun item => send_message (snd (snd item)) notification).

Definition handle_register (data : json) (wr : writer) : M json :=
  username <- field data "username" ;;
  password <- field data "password" ;;
  if negb (PyStr.truthy username) || negb (PyStr.truthy password) then
    create_response "register" "error" None "用户名和密码不能为空"
  else
    w <- get_world ;;
    if PyDict.mem username (users_db w) then
      create_response "register" "error" None "用户名已存在"
    else
      t <- time_time ;;
      modify (fun w =>
        with_users_db
          (PyDict.set username (mkUser (hash_password password) t) (users_db w)) w) ;;
      broadcast_online_users_update ;;
      create_response "register" "success" None "注册成功".

(** The coroutine assigns to the cell [current_user[0]] of its caller; here it
    returns the content of the cell next to the response. *)
Definition handle_login (data : json) (rd : reader) (wr : writer)
    (current_user : option string) : M (json * option string) :=
  username <- field data "username" ;;
  password <- field data "password" ;;
  if negb (PyStr.truthy username) || negb (PyStr.truthy password) then
    r <- create_response "login" "error" None "用户名和密码不能为空" ;;
    ret (r, current_user)
  else
    w <- get_world ;;
    if negb (PyDict.mem username (users_db w)) then
      r <- create_response "login" "error" None "用户不存在" ;;
      ret (r, current_user)
    else
      u <- getitem username (users_db w) ;;
      if negb (String.eqb (password_hash u) (hash_password password)) then
        r <- create_response "login" "error" None "密码错误" ;;
        ret (r, current_user)
      else if PyDict.mem username (online_users w) then
        r <- create_response "login" "error" None "用户已在线" ;;
        ret (r, current_user)
      else
        modify (fun w =>
          with_online_users (PyDict.set username (rd, wr) (online_users w)) w) ;;
        let current_user := Some username in
        w <- get_world ;;
        let online_list := PyDict.keys (online_users w) in
        let registered_list := PyDict.keys (users_db w) in
        (if PyDict.mem username (offline_messages w) then
           queued <- getitem username (offline_messages w) ;;
           for_each queued (fun message => send_message wr message) ;;
           modify (fun w =>
             with_offline_messages (PyDict.del username (offline_messages w)) w)
         else ret tt) ;;
        broadcast_online_users_update ;;
        r <- create_response "login" "success"
               (Some [("online_users", JArr (map JStr online_list));
                      ("registered_users", JArr (map JStr registered_list))])
               "登录成功" ;;
        ret (r, current_user).

Definition handle_private_chat (data : json) (sender : string) : M json :=
  target <- field data "to" ;;
  message <- field data "message" ;;
  if negb (PyStr.truthy target) || negb (PyStr.truthy message) then
    create_response "private_chat" "error" None "目标用户和消息内容不能为空"
  else if String.eqb target sender then
    create_response "private_chat" "error" None "不能发送消息给自己"
  else
    w <- get_world ;;
    if negb (PyDict.mem target (users_db w)) then
      create_response "private_chat" "error" None "目标用户不存在"
    else
      notification <- create_notification "private_message"
        [("from", JStr sender); ("message", JStr message)] ;;
      if PyDict.mem target (online_users w) then
        session <- getitem target (online_users w) ;;
        let target_writer := snd session in
        send_message target_writer notification ;;
        create_response "private_chat" "success" None "消息已发送"
      else
        (if negb (PyDict.mem target (offline_messages w)) then
           modify (fun w =>
             with_offline_messages (PyDict.set target [] (offline_messages w)) w)
         else ret tt) ;;
        w <- get_world ;;
        queue <- getitem target (offline_messages w) ;;
        modify (fun w =>
          with_offline_messages
            (PyDict.set target (queue ++ [notification]) (offline_messages w)) w) ;;
        create_response "private_chat" "success" None "目标用户不在线，消息已存储为离线消息".

(** The body of [for member in groups[group_name]], with its counter. *)
Fixpoint group_chat_loop (members : list string) (sender : string)
    (notification : json) (sent_count : Z) : M Z :=
  match members with
  | [] => ret sent_count
  | member :: rest =>
      w <- get_world ;;
      if negb (String.eqb member sender) && PyDict.mem member (online_users w) then
        session <- getitem member (online_users w) ;;
        let member_writer := snd session in
        send_message member_writer notification ;;
        group_chat_loop rest sender notification (sent_count + 1)
      else
        group_chat_loop rest sender notification sent_count
  end.

Definition handle_group_chat (data : json) (sender : string) : M json :=
  group_name <- field data "group" ;;
  message <- field data "message" ;;
  if negb (PyStr.truthy group_name) || negb (PyStr.truthy message) then
    create_response "group_chat" "error" None "群名和消息内容不能为空"
  else
    w <- get_world ;;
    if negb (PyDict.mem group_name (groups w)) then
      create_response "group_chat" "error" None "群组不存在"
    else
      members <- getitem group_name (groups w) ;;
      if negb (set_mem string_dec sender members) then
        create_response "group_chat" "error" None "您不在该群组中"
      else
        notification <- create_notification "group_message"
          [("from", JStr sender); ("group", JStr group_name); ("message", JStr message)] ;;
        sent_count <- group_chat_loop members sender notification 0 ;;
        create_response "group_chat" "success" (Some [("sent_to", JInt sent_count)])
          "消息已发送".

Definition handle_create_group (data : json) (creator : string) : M json :=
  group_name <- field data "group_name" ;;
  if negb (PyStr.truthy group_name) then
    create_response "create_group" "error" None "群组名不能为空"
  else
    w <- get_world ;;
    if PyDict.mem group_name (groups w) then
      create_response "create_group" "error" None "群组已存在"
    else
      modify (fun w => with_groups (PyDict.set group_name [creator] (groups w)) w) ;;
      create_response "create_group" "success" None "群组创建成功".

Definition handle_join_group (data : json) (user : string) : M json :=
  group_name <- field data "group_name" ;;
  if negb (PyStr.truthy group_name) then
    create_response "join_group" "error" None "群组名不能为空"
  else
    w <- get_world ;;
    if negb (PyDict.mem group_name (groups w)) then
      create_response "join_group" "error" None "群组不存在"
    else
      members <- getitem group_name (groups w) ;;
      if set_mem string_dec user members then
        create_response "join_group" "error" None "您已在该群组中"
      else
        modify (fun w =>
          with_groups (PyDict.set group_name (set_add string_dec user members) (groups w)) w) ;;
        create_response "join_group" "success" None "成功加入群组".

Definition handle_list_groups (data : json) (user : string) : M json :=
  w <- get_world ;;
  let user_groups :=
    map fst (filter (fun item => set_mem string_dec user (snd item)) (groups w)) in
  let all_groups := PyDict.keys (groups w) in
  create_response "list_groups" "success"
    (Some [("my_groups", JArr (map JStr user_groups));
           ("all_groups", JArr (map JStr all_groups))])
    "".

Definition handle_logout (user : string) : M unit :=
  w <- get_world ;;
  if PyDict.mem user (online_users w) then
    modify (fun w => with_online_users (PyDict.del user (online_users w)) w) ;;
    broadcast_online_users_update
  else ret tt.

(** *** Reading frames *)

(** The state of an [asyncio.StreamReader]: the bytes it has buffered and the
    chunks the transport will still feed it, end of stream after the last. *)
Record StreamReader : Type := mkReader {
  buffer : list byte;
  pending : list (list byte)
}.

(** [await reader.readexactly(n)]; [None] stands for [IncompleteReadError],
    which leaves the buffer empty. *)
Fixpoint readexactly_from (n : nat) (buf : list byte) (pend : list (list byte))
    : option (list byte) * StreamReader :=
  if (n <=? length buf)%nat then
    (Some (firstn n buf), mkReader (skipn n buf) pend)
  else
    match pend with
    | [] => (None, mkReader [] [])
    | chunk :: pend' => readexactly_from n (buf ++ chunk) pend'
    end.

Definition readexactly (n : nat) (r : StreamReader) : option (list byte) * StreamReader :=
  readexactly_from n (buffer r) (pending r).

(** Waiting until the buffer holds a byte or the stream has ended. *)
Fixpoint wait_for_data (buf : list byte) (pend : list (list byte)) : StreamReader :=
  match buf, pend with
  | [], chunk :: pend' => wait_for_data chunk pend'
  | _, _ => mkReader buf pend
  end.

(** [await reader.read(n)]: no bytes at all for [n = 0] or at the end of the
    stream, and otherwise at least one and at most [n] of the buffered bytes. *)
Definition read (n : nat) (r : StreamReader) : list byte * StreamReader :=
  match n with
  | O => ([], r)
  | S _ =>
      let r' := wait_for_data (buffer r) (pending r) in
      (firstn n (buffer r'), mkReader (skipn n (buffer r')) (pending r'))
  end.

(** The loop [while len(message_bytes) < length] of [receive_message]. The
    inner [None] stands for the [ConnectionResetError] of an empty chunk, the
    outer one for a loop cut short by [fuel] (which [length] rounds of it
    never are, see [read_payload_fuel]). *)
Fixpoint read_payload (fuel : nat) (len : Z) (message_bytes : list byte)
    (r : StreamReader) : option (option (list byte) * StreamReader) :=
  if (Z.of_nat (length message_bytes) <? len)%Z then
    match fuel with
    | O => None
    | S fuel' =>
        let (chunk, r') := read (Z.to_nat (len - Z.of_nat (length message_bytes))) r in
        match chunk with
        | [] => Some (None, r')
        | _ :: _ => read_payload fuel' len (message_bytes ++ chunk) r'
        end
    end
  else Some (Some message_bytes, r).

(** Every failure ends in [return ""]. *)
Definition receive_message (r : StreamReader) : string * StreamReader :=
  match readexactly 4 r with
  | (None, r') => ("", r')
  | (Some length_bytes, r') =>
      let len := PyStr.int_from_bytes_big length_bytes in
      match read_payload (Z.to_nat len) len [] r' with
      | Some (Some message_bytes, r'') =>
          match PyStr.decode_utf8 message_bytes with
          | Some s => (s, r'')
          | None => ("", r'')
          end
      | Some (None, r'') => ("", r'')
      | None => ("", r')
      end
  end.

(** *** One connection *)

(** The user a truthy cell [current_user[0]] holds. *)
Definition bound_user (current_user : option string) : option string :=
  if bound current_user then current_user else None.

(** The [if]/[elif] chain of [handle_client] on a decoded message; it returns
    the response and the content of the cell [current_user[0]]. *)
Definition dispatch (message : json) (rd : reader) (wr : writer)
    (current_user : option string) : M (json * option string) :=
  msg_type <- json_get message "type" (JStr "") ;;
  data <- json_get message "data" (JObj []) ;;
  if json_eq_str msg_type "register" then
    r <- handle_register data wr ;; ret (r, current_user)
  else if json_eq_str msg_type "login" then
    handle_login data rd wr current_user
  else if json_eq_str msg_type "logout" then
    match bound_user current_user with
    | Some user =>
        handle_logout user ;;
        r <- create_response "logout" "success" None "已成功登出" ;;
        ret (r, None)
    | None =>
        r <- create_response "logout" "error" None "您尚未登录" ;;
        ret (r, current_user)
    end
  else
    match bound_user current_user with
    | Some user =>
        r <- (if json_eq_str msg_type "private_chat" then handle_private_chat data user
              else if json_eq_str msg_type "group_chat" then handle_group_chat data user
              else if json_eq_str msg_type "create_group" then handle_create_group data user
              else if json_eq_str msg_type "join_group" then handle_join_group data user
              else if json_eq_str msg_type "list_groups" then handle_list_groups data user
              else create_response "unknown" "error" None "未知的消息类型") ;;
        ret (r, current_user)
    | None =>
        r <- create_response "auth" "error" None "请先登录" ;;
        ret (r, current_user)
    end.

(** A computation that cannot fail, run for its effect. *)
Definition run {A : Type} (m : M A) (w : world) : world := snd (m w).

(** The inner [try] of the loop on one received text. Every response of
    [create_response] is a JSON text, never the empty string, so [if response]
    holds. An exception leaves the cell as it was: the handlers raise, if at
    all, while they read the fields of the request. *)
Definition handle_raw (raw_message : string) (rd : reader) (wr : writer)
    (current_user : option string) (w : world) : option string * world :=
  match json_loads raw_message with
  | None =>
      (current_user,
       run (error_response <- create_response "parse" "error" None "消息格式错误" ;;
            send_message wr error_response) w)
  | Some message =>
      match dispatch message rd wr current_user w with
      | (Ok (response, current_user'), w') =>
          (current_user', run (send_message wr response) w')
      | (Raise _, w') =>
          (current_user,
           run (error_response <- create_response "server" "error" None "服务器内部错误" ;;
                send_message wr error_response) w')
      end
  end.

(** The [finally] clause. *)
Definition cleanup (wr : writer) (current_user : option string) (w : world) : world :=
  let w' :=
    match bound_user current_user with
    | Some user =>
        if PyDict.mem user (online_users w) then run (handle_logout user) w else w
    | None => w
    end in
  with_closed (wr :: closed w') w'.

(** The [while True] loop on the frames of one connection, the other
    connections being idle meanwhile; [None] when [fuel] rounds did not reach
    the end of the stream. *)
Fixpoint read_loop (fuel : nat) (r : StreamReader) (rd : reader) (wr : writer)
    (current_user : option string) (w : world) : option (option string * world) :=
  match fuel with
  | O => None
  | S fuel' =>
      let (raw_message, r') := receive_message r in
      if negb (PyStr.truthy raw_message) then Some (current_user, w)
      else
        let (current_user', w') := handle_raw raw_message rd wr current_user w in
        read_loop fuel' r' rd wr current_user' w'
  end.

Definition handle_client (fuel : nat) (r : StreamReader) (rd : reader) (wr : writer)
    (w : world) : option world :=
  match read_loop fuel r rd wr None w with
  | Some (current_user, w') => Some (cleanup wr current_user w')
  | None => None
  end.

End Server.

(** ** Reading responses and the state of the registries *)

(** [v[key]] on a message of the server. *)
Definition member (key : string) (v : json) : option json :=
  match v with
  | JObj fields => PyDict.get key fields
  | _ => None
  end.

Definition status_of (response : json) : option json := member "status" response.

Definition message_of (response : json) : option json := member "message" response.

Definition type_of (envelope : json) : option json := member "type" envelope.

(** The four dictionaries of the module. *)
Definition registries (w : world) :
    PyDict.dict (reader * writer) * PyDict.dict user
    * PyDict.dict (set string) * PyDict.dict (list json) :=
  (online_users w, users_db w, groups w, offline_messages w).

(** A world whose dictionaries are as Python keeps them and as the server
    fills them: no key occurs twice, the members of a group are a set, only
    registered users have a session or a queue, and a user who has a session
    has no queue. *)
Record well_formed (w : world) : Prop := {
  sessions_unique : NoDup (PyDict.keys (online_users w));
  users_unique : NoDup (PyDict.keys (users_db w));
  groups_unique : NoDup (PyDict.keys (groups w));
  queues_unique : NoDup (PyDict.keys (offline_messages w));
  members_unique : Forall (fun item => NoDup (snd item)) (groups w);
  sessions_registered :
    forall u, PyDict.mem u (online_users w) = true -> PyDict.mem u (users_db w) = true;
  queues_registered :
    forall u, PyDict.mem u (offline_messages w) = true -> PyDict.mem u (users_db w) = true;
  online_no_queue :
    forall u, PyDict.mem u (online_users w) = true -> PyDict.mem u (offline_messages w) = false
}.

(** The frames of one broadcast: the notification, once for each session of
    [sessions], in the order of the dictionary. *)
Definition broadcast_frames (sessions : PyDict.dict (reader * writer))
    (notification : json) : list (writer * json) :=
  map (fun item => (snd (snd item), notification)) sessions.

(** The notification of [broadcast_online_users_update] at the clock reading
    [t]. *)
Definition update_notification (online : PyDict.dict (reader * writer))
    (registered : PyDict.dict user) (t : float) : json :=
  notification_dict "update_online_users"
    [("online_users", JArr (map JStr (PyDict.keys online)));
     ("registered_users", JArr (map JStr (PyDict.keys registered)))] t.

(** Requests, as the clients build them. *)
Definition credentials (username password : string) : json :=
  JObj [("username", JStr username); ("password", JStr password)].

Definition private_chat_data (to text : string) : json :=
  JObj [("to", JStr to); ("message", JStr text)].

Definition group_chat_data (group text : string) : json :=
  JObj [("group", JStr group); ("message", JStr text)].

Definition group_name_data (group_name : string) : json :=
  JObj [("group_name", JStr group_name)].

Definition request (msg_type : string) (data : json) : json :=
  JObj [("type", JStr msg_type); ("data", data)].

(** ** What the handlers leave behind

    The worlds, notifications and lists of recipients that the properties
    below speak about. *)

Section Outcomes.
Context {platform : Platform}.

(** The world a successful login of [username] on the connection [(rd, wr)]
    leaves: the session is inserted, the queued messages are sent to [wr]
    and their queue is deleted, the update is broadcast, and the clock was
    read twice. *)
Definition after_login (username : string) (rd : reader) (wr : writer) (w : world) : world :=
  let sessions := PyDict.set username (rd, wr) (online_users w) in
  mkWorld sessions (users_db w) (groups w)
    (PyDict.del username (offline_messages w))
    (sent w
     ++ map (pair wr) (PyDict.get_default username [] (offline_messages w))
     ++ broadcast_frames sessions
          (update_notification sessions (users_db w) (clock_reading (ticks w))))
    (closed w) (S (S (ticks w))).

(** The snapshot in the data of the login response. *)
Definition login_data (sessions : PyDict.dict (reader * writer))
    (registered : PyDict.dict user) : list (string * json) :=
  [("online_users", JArr (map JStr (PyDict.keys sessions)));
   ("registered_users", JArr (map JStr (PyDict.keys registered)))].


(** The notification of a private message built at the clock reading [t]. *)
Definition private_message (sender message : string) (t : float) : json :=
  notification_dict "private_message" [("from", JStr sender); ("message", JStr message)] t.

(** The members a group message goes to: every member but the sender who has
    a session, in the order the loop visits the members. *)
Definition recipients (members : list string) (sender : string)
    (sessions : PyDict.dict (reader * writer)) : list string :=
  filter (fun member => negb (String.eqb member sender) && PyDict.mem member sessions)
         members.

(** The writer of the session of [member] (connection 0 stands in when there
    is none). *)
Definition session_writer (sessions : PyDict.dict (reader * writer))
    (member : string) : writer :=
  match PyDict.get member sessions with
  | Some session => snd session
  | None => 0
  end.

Definition group_message (sender group_name message : string) (t : float) : json :=
  notification_dict "group_message"
    [("from", JStr sender); ("group", JStr group_name); ("message", JStr message)] t.




End Outcomes.

(** ** The bytes on the wire *)

(** The byte of value [z mod 256]. *)
Definition byte_of_Z (z : Z) : byte :=
  match Byte.of_N (Z.to_N (z mod 256)) with
  | Some b => b
  | None => x00
  end.

(** [n.to_bytes(4, byteorder='big')]; [None] stands for [OverflowError]. *)
Definition int_to_bytes4_big (n : Z) : option (list byte) :=
  if ((0 <=? n) && (n <? 2 ^ 32))%Z then
    Some [byte_of_Z (n / 2 ^ 24); byte_of_Z (n / 2 ^ 16); byte_of_Z (n / 2 ^ 8); byte_of_Z n]
  else None.

(** [message.encode('utf-8')]: a [str] is kept as its UTF-8 encoding. *)
Definition encode_utf8 (message : string) : list byte := list_byte_of_string message.

(** A text is a [str] when its bytes are UTF-8. *)
Definition is_text (message : string) : bool :=
  PyStr.utf8_valid (map Byte.to_N (encode_utf8 message)).

(** What [send_message] hands to [writer.write] for the text [message]:
    [length_bytes + msg_bytes]. [None] when [to_bytes] raises, which the
    [except] of [send_message] catches: nothing is written then. *)
Definition frame (message : string) : option (list byte) :=
  let msg_bytes := encode_utf8 message in
  match int_to_bytes4_big (Z.of_nat (length msg_bytes)) with
  | Some length_bytes => Some (length_bytes ++ msg_bytes)
  | None => None
  end.

(** The bytes a reader will still deliver, in their order. *)
Definition stream_bytes (r : StreamReader) : list byte :=
  buffer r ++ concat (pending r).

(** The frames of some texts, back to back; [None] when one of them does not
    fit its length prefix. *)
Fixpoint frames (messages : list string) : option (list byte) :=
  match messages with
  | [] => Some []
  | message :: rest =>
      match frame message, frames rest with
      | Some first, Some others => Some (first ++ others)
      | _, _ => None
      end
  end.

Section Streams.
Context {platform : Platform}.

(** The inner [try] of [handle_client] on some received texts, one after the
    other, on one connection. *)
Fixpoint handle_all (messages : list string) (rd : reader) (wr : writer)
    (current_user : option string) (w : world) : option string * world :=
  match messages with
  | [] => (current_user, w)
  | raw_message :: rest =>
      let (current_user', w') := handle_raw raw_message rd wr current_user w in
      handle_all rest rd wr current_user' w'
  end.

End Streams.

(** ** Kinds of messages *)

(** A message [create_response] built: its type ends in "_response" and its
    status is "success" or "error". *)
Definition is_response (m : json) : Prop :=
  (exists msg_type, type_of m = Some (JStr (msg_type ++ "_response")))
  /\ (status_of m = Some (JStr "success") \/ status_of m = Some (JStr "error")).

(** A message [create_notification] built for one of the three pushes of the
    server. *)
Definition is_notification (m : json) : Prop :=
  type_of m = Some (JStr "private_message")
  \/ type_of m = Some (JStr "group_message")
  \/ type_of m = Some (JStr "update_online_users").

(** ** What one request may change *)

(** The ways in which a request on the connection [(rd, wr)], whose cell is
    [current_user], changes the four dictionaries and the cell: not at all,
    or by one registration, login, logout, queued message, new group or new
    member. *)
Inductive transition (rd : reader) (wr : writer) (current_user : option string)
    (w : world) (current_user' : option string) (w' : world) : Prop :=
| unchanged :
    registries w' = registries w ->
    current_user' = current_user ->
    transition rd wr current_user w current_user' w'
| registered (username : string) (u : user) :
    username <> "" ->
    PyDict.mem username (users_db w) = false ->
    registries w'
    = (online_users w, PyDict.set username u (users_db w), groups w, offline_messages w) ->
    current_user' = current_user ->
    transition rd wr current_user w current_user' w'
| logged_in (username : string) :
    username <> "" ->
    PyDict.mem username (users_db w) = true ->
    PyDict.mem username (online_users w) = false ->
    registries w'
    = (PyDict.set username (rd, wr) (online_users w), users_db w, groups w,
       PyDict.del username (offline_messages w)) ->
    current_user' = Some username ->
    transition rd wr current_user w current_user' w'
| logged_out (user : string) :
    bound_user current_user = Some user ->
    registries w'
    = (PyDict.del user (online_users w), users_db w, groups w, offline_messages w) ->
    current_user' = None ->
    transition rd wr current_user w current_user' w'
| queued (sender target : string) (notification : json) :
    bound_user current_user = Some sender ->
    PyDict.mem target (users_db w) = true ->
    PyDict.mem target (online_users w) = false ->
    type_of notification = Some (JStr "private_message") ->
    registries w'
    = (online_users w, users_db w, groups w,
       PyDict.set target
         (PyDict.get_default target [] (offline_messages w) ++ [notification])
         (offline_messages w)) ->
    current_user' = current_user ->
    transition rd wr current_user w current_user' w'
| group_created (group_name user : string) :
    bound_user current_user = Some user ->
    group_name <> "" ->
    PyDict.mem group_name (groups w) = false ->
    registries w'
    = (online_users w, users_db w, PyDict.set group_name [user] (groups w),
       offline_messages w) ->
    current_user' = current_user ->
    transition rd wr current_user w current_user' w'
| group_joined (group_name user : string) (members : set string) :
    bound_user current_user = Some user ->
    PyDict.get group_name (groups w) = Some members ->
    set_mem string_dec user members = false ->
    registries w'
    = (online_users w, users_db w,
       PyDict.set group_name (set_add string_dec user members) (groups w),
       offline_messages w) ->
    current_user' = current_user ->
    transition rd wr current_user w current_user' w'.

(** A frame the server pushes: a notification built now, or a message that
    was waiting in a queue of [w]. *)
Definition pushed_from (w : world) (frame : writer * json) : Prop :=
  is_notification (snd frame)
  \/ exists username queue,
       PyDict.get username (offline_messages w) = Some queue /\ In (snd frame) queue.

(** What a request that is answered with [response] leaves: the response
    is one of [create_response], the dictionaries changed in one of the ways
    above, no connection was closed, the clock was read, and the frames sent
    meanwhile were pushed. *)
Definition answers (rd : reader) (wr : writer) (current_user : option string) (w : world)
    (current_user' : option string) (w' : world) (response : json) : Prop :=
  is_response response
  /\ transition rd wr current_user w current_user' w'
  /\ closed w' = closed w
  /\ (ticks w < ticks w')%nat
  /\ exists pushed, sent w' = sent w ++ pushed /\ Forall (pushed_from w) pushed.

(** Every queued message is the notification of a private message. *)
Definition queues_hold_private_messages (w : world) : Prop :=
  forall username queue message,
    PyDict.get username (offline_messages w) = Some queue ->
    In message queue ->
    type_of message = Some (JStr "private_message").

(** No user and no group has the empty name. *)
Definition names_not_empty (w : world) : Prop :=
  ~ In "" (PyDict.keys (online_users w))
  /\ ~ In "" (PyDict.keys (users_db w))
  /\ ~ In "" (PyDict.keys (groups w))
  /\ ~ In "" (PyDict.keys (offline_messages w)).

(** ** The server as a whole *)

(** One round of the loop of [handle_client] on a connection: the connection
    and the text [receive_message] returned on it, the empty string when its
    stream ended or failed. The reader and the writer of a connection carry
    its number. *)
Definition event : Type := (nat * string)%type.

(** The cells [current_user] of the connections, [[None]] when a connection
    starts. *)
Definition cells : Type := nat -> option string.

Definition no_cells : cells := fun _ => None.

Definition set_cell (connection : nat) (current_user : option string) (cs : cells) : cells :=
  fun c => if Nat.eqb c connection then current_user else cs c.

Section Connections.
Context {platform : Platform}.

(** The rounds of all connections, one after the other as the event loop
    runs them: a text is handled, the empty text ends the loop and runs the
    [finally] clause; a connection whose writer is closed has no round. *)
Definition serve_event (e : event) (cs : cells) (w : world) : cells * world :=
  let (connection, raw_message) := e in
  if existsb (Nat.eqb connection) (closed w) then (cs, w)
  else if negb (PyStr.truthy raw_message) then
    (cs, cleanup connection (cs connection) w)
  else
    let (current_user', w') :=
      handle_raw raw_message connection connection (cs connection) w in
    (set_cell connection current_user' cs, w').

Fixpoint serve (events : list event) (cs : cells) (w : world) : cells * world :=
  match events with
  | [] => (cs, w)
  | e :: rest =>
      let (cs', w') := serve_event e cs w in
      serve rest cs' w'
  end.

End Connections.

(** An open connection whose cell holds a user holds the session of this
    user. *)
Definition sessions_owned (cs : cells) (w : world) : Prop :=
  forall connection user,
    ~ In connection (closed w) ->
    bound_user (cs connection) = Some user ->
    PyDict.get user (online_users w) = Some (connection, connection).

(** ** A platform for the examples *)

Module Demo.

(** SHA-256 on the passwords of the examples (the digests are the real ones);
    other texts get a tagged copy of themselves. *)
Definition sha256_table : list (string * string) :=
  [("p1", "f64551fcd6f07823cb87971cfb91446425da18286b3ab1ef935e0cbd7a69f68a");
   ("p2", "3946ca64ff78d93ca61090a437cbb6b3d2ca0d488f5f9ccf3059608368b27693");
   ("p3", "43bb00d0ce7790a53b91256b370c887b24791a5539a6fbfb70c5870e8c91ae5d");
   ("wrong", "8810ad581e59f2bc3928b261707a71308f7e139eb04820366dc4d5c18d980225")].

Definition sha256 (s : string) : string :=
  PyDict.get_default s ("sha256:" ++ s)%string sha256_table.

(** A clock that advances by one second at each reading. *)
Fixpoint clock (n : nat) : float :=
  match n with
  | O => 1700000000%float
  | S m => (clock m + 1)%float
  end.

(** [json.loads] on the few texts the examples could meet. *)
Definition loads (raw : string) : option json :=
  if String.eqb raw "{}" then Some (JObj [])
  else if String.eqb raw "[]" then Some (JArr [])
  else if String.eqb raw "null" then Some JNull
  else if String.eqb raw "0" then Some (JInt 0)
  else None.

#[local] Instance platform : Platform :=
  {| sha256_hexdigest := sha256; clock_reading := clock; json_loads := loads |}.

(** The worlds of the examples are reached from the start-up state by the
    handlers themselves. First alice (password p1), bob (password p3) and
    carol (password p2) register, in this order. *)
Definition registered : world :=
  run (handle_register (credentials "alice" "p1") 1 ;;
       handle_register (credentials "bob" "p3") 2 ;;
       handle_register (credentials "carol" "p2") 3)
      initial_world.

(** Then alice logs in on connection 1. *)
Definition alice_online : world :=
  run (handle_login (credentials "alice" "p1") 1 1 None) registered.

(** bob and carol log in on connections 2 and 3. *)
Definition all_online : world :=
  run (handle_login (credentials "bob" "p3") 2 2 None ;;
       handle_login (credentials "carol" "p2") 3 3 None)
      alice_online.

(** alice creates the group "team" and bob joins it. *)
Definition with_team : world :=
  run (handle_create_group (group_name_data "team") "alice" ;;
       handle_join_group (group_name_data "team") "bob")
      all_online.

End Demo.

(** * Properties *)

(** ** Text *)

Lemma truthy_false s : PyStr.truthy s = false <-> s = "".
Proof. destruct s; simpl; split; congruence. Qed.

Lemma truthy_true s : PyStr.truthy s = true <-> s <> "".
Proof. destruct s; simpl; split; congruence. Qed.

(** ** Dictionaries *)

Section DictFacts.
Context {V : Type}.
Implicit Types (d : PyDict.dict V) (k : string) (v : V).

Lemma mem_get_some k d : PyDict.mem k d = true <-> exists v, PyDict.get k d = Some v.
Proof.
  unfold PyDict.mem. destruct (PyDict.get k d) as [v|].
  - split; [eauto | reflexivity].
  - split; [discriminate | intros [v Hv]; discriminate].
Qed.

Lemma mem_get_none k d : PyDict.mem k d = false <-> PyDict.get k d = None.
Proof.
  unfold PyDict.mem. destruct (PyDict.get k d); split; congruence.
Qed.

Lemma get_del_same k d : PyDict.get k (PyDict.del k d) = None.
Proof.
  induction d as [|[k' v'] d IH]; simpl; [reflexivity|].
  destruct (String.eqb k k') eqn:E; simpl; [exact IH|].
  rewrite E. exact IH.
Qed.

Lemma get_del_other k k' d : k <> k' -> PyDict.get k' (PyDict.del k d) = PyDict.get k' d.
Proof.
  intros Hne. induction d as [|[k0 v0] d IH]; simpl; [reflexivity|].
  destruct (String.eqb k k0) eqn:E; simpl.
  - apply String.eqb_eq in E. subst k0.
    destruct (String.eqb k' k) eqn:E'; [apply String.eqb_eq in E'; congruence | exact IH].
  - destruct (String.eqb k' k0); [reflexivity | exact IH].
Qed.

Lemma mem_del_same k d : PyDict.mem k (PyDict.del k d) = false.
Proof. apply mem_get_none, get_del_same. Qed.

Lemma del_absent k d : PyDict.mem k d = false -> PyDict.del k d = d.
Proof.
  unfold PyDict.mem. induction d as [|[k' v'] d IH]; simpl; [reflexivity|].
  destruct (String.eqb k k') eqn:E; simpl; [discriminate|].
  intros H. f_equal. apply IH, H.
Qed.

Lemma get_set_same k v d : PyDict.get k (PyDict.set k v d) = Some v.
Proof.
  induction d as [|[k' v'] d IH]; simpl.
  - rewrite String.eqb_refl. reflexivity.
  - destruct (String.eqb k k') eqn:E; simpl; rewrite E; [reflexivity | exact IH].
Qed.

Lemma get_set_other k k' v d : k <> k' -> PyDict.get k' (PyDict.set k v d) = PyDict.get k' d.
Proof.
  intros Hne. induction d as [|[k0 v0] d IH]; simpl.
  - destruct (String.eqb k' k) eqn:E; [apply String.eqb_eq in E; congruence | reflexivity].
  - destruct (String.eqb k k0) eqn:E; simpl.
    + apply String.eqb_eq in E. subst k0.
      destruct (String.eqb k' k) eqn:E'; [apply String.eqb_eq in E'; congruence | reflexivity].
    + destruct (String.eqb k' k0); [reflexivity | exact IH].
Qed.

Lemma set_absent k v d : PyDict.mem k d = false -> PyDict.set k v d = d ++ [(k, v)].
Proof.
  unfold PyDict.mem. induction d as [|[k' v'] d IH]; simpl; [reflexivity|].
  destruct (String.eqb k k') eqn:E; [discriminate|].
  intros H. f_equal. apply IH, H.
Qed.

Lemma keys_set_absent k v d :
  PyDict.mem k d = false -> PyDict.keys (PyDict.set k v d) = PyDict.keys d ++ [k].
Proof.
  intros H. rewrite (set_absent k v d H). unfold PyDict.keys. rewrite map_app. reflexivity.
Qed.

Lemma set_set k v v' d : PyDict.set k v (PyDict.set k v' d) = PyDict.set k v d.
Proof.
  induction d as [|[k0 v0] d IH]; simpl.
  - rewrite String.eqb_refl. reflexivity.
  - destruct (String.eqb k k0) eqn:E; simpl; rewrite E; [reflexivity|].
    f_equal. exact IH.
Qed.

Lemma mem_set_same k v d : PyDict.mem k (PyDict.set k v d) = true.
Proof. apply mem_get_some. exists v. apply get_set_same. Qed.

Lemma mem_set_other k k' v d : k <> k' -> PyDict.mem k' (PyDict.set k v d) = PyDict.mem k' d.
Proof. intros H. unfold PyDict.mem. rewrite (get_set_other k k' v d H). reflexivity. Qed.

Lemma mem_In_keys k d : PyDict.mem k d = true <-> In k (PyDict.keys d).
Proof.
  unfold PyDict.mem, PyDict.keys. induction d as [|[k' v'] d IH]; simpl.
  - split; [discriminate | tauto].
  - destruct (String.eqb k k') eqn:E.
    + apply String.eqb_eq in E. subst. tauto.
    + apply String.eqb_neq in E. rewrite IH. split; [tauto | intros [H|H]; congruence].
Qed.

Lemma keys_set_present k v d :
  PyDict.mem k d = true -> PyDict.keys (PyDict.set k v d) = PyDict.keys d.
Proof.
  unfold PyDict.mem, PyDict.keys. induction d as [|[k' v'] d IH]; simpl; [discriminate|].
  destruct (String.eqb k k') eqn:E; simpl; [reflexivity|].
  intros H. f_equal. apply IH, H.
Qed.

Lemma keys_set_NoDup k v d : NoDup (PyDict.keys d) -> NoDup (PyDict.keys (PyDict.set k v d)).
Proof.
  intros Hd. destruct (PyDict.mem k d) eqn:E.
  - rewrite (keys_set_present k v d E). exact Hd.
  - rewrite (keys_set_absent k v d E).
    apply NoDup_app; [exact Hd | repeat constructor; intros [] |].
    intros x Hx [<-|[]]. apply mem_In_keys in Hx. congruence.
Qed.

Lemma keys_del_NoDup k d : NoDup (PyDict.keys d) -> NoDup (PyDict.keys (PyDict.del k d)).
Proof.
  unfold PyDict.keys, PyDict.del. induction d as [|[k' v'] d IH]; simpl; [auto|].
  intros Hd. inversion Hd as [|x l Hnotin Hrest]; subst.
  destruct (String.eqb k k'); simpl; [apply IH, Hrest|].
  constructor; [|apply IH, Hrest].
  intros Hin. apply Hnotin. apply in_map_iff in Hin. destruct Hin as [item [Hfst Hin]].
  apply filter_In in Hin. apply in_map_iff. exists item. tauto.
Qed.

Lemma mem_del_other k k' d : k <> k' -> PyDict.mem k' (PyDict.del k d) = PyDict.mem k' d.
Proof. intros H. unfold PyDict.mem. rewrite (get_del_other k k' d H). reflexivity. Qed.

Lemma mem_set_cases k k' v d :
  PyDict.mem k' (PyDict.set k v d) = true -> k' = k \/ PyDict.mem k' d = true.
Proof.
  destruct (String.eqb k k') eqn:E.
  - apply String.eqb_eq in E. auto.
  - apply String.eqb_neq in E. rewrite (mem_set_other k k' v d E). auto.
Qed.

Lemma mem_set_mono k k' v d :
  PyDict.mem k' d = true -> PyDict.mem k' (PyDict.set k v d) = true.
Proof.
  intros H. destruct (String.eqb k k') eqn:E.
  - apply String.eqb_eq in E. subst. apply mem_set_same.
  - apply String.eqb_neq in E. rewrite (mem_set_other k k' v d E). exact H.
Qed.

Lemma mem_del_cases k k' d :
  PyDict.mem k' (PyDict.del k d) = true -> k' <> k /\ PyDict.mem k' d = true.
Proof.
  destruct (String.eqb k k') eqn:E.
  - apply String.eqb_eq in E. subst. rewrite mem_del_same. discriminate.
  - apply String.eqb_neq in E. rewrite (mem_del_other k k' d E). auto.
Qed.

Lemma get_In k v d : PyDict.get k d = Some v -> In (k, v) d.
Proof.
  induction d as [|[k' v'] d IH]; simpl; [discriminate|].
  destruct (String.eqb k k') eqn:E.
  - apply String.eqb_eq in E. intros H. injection H as ->. subst. auto.
  - auto.
Qed.

Lemma Forall_set (P : string * V -> Prop) k v d :
  (forall k0, P (k0, v)) -> Forall P d -> Forall P (PyDict.set k v d).
Proof.
  intros Hv. induction 1 as [|[k' v'] d Hx Hd IH]; simpl.
  - constructor; [apply Hv | constructor].
  - destruct (String.eqb k k'); constructor; auto.
Qed.

End DictFacts.

(** ** The monad and the basic operations *)

Lemma with_sent_same w : with_sent (sent w) w = w.
Proof. destruct w; reflexivity. Qed.


Section BasicOperations.
Context {platform : Platform}.

Lemma create_response_run msg_type status data message w :
  create_response msg_type status data message w
  = (Ok (response_dict msg_type status data message (clock_reading (ticks w))),
     with_ticks (S (ticks w)) w).
Proof. reflexivity. Qed.

Lemma create_notification_run msg_type data w :
  create_notification msg_type data w
  = (Ok (notification_dict msg_type data (clock_reading (ticks w))),
     with_ticks (S (ticks w)) w).
Proof. reflexivity. Qed.

(** A loop of sends appends its frames to the log, in the order of the loop. *)
Lemma for_each_send {A : Type} (l : list A) (to : A -> writer) (what : A -> json) w :
  for_each l (fun x => send_message (to x) (what x)) w
  = (Ok tt, with_sent (sent w ++ map (fun x => (to x, what x)) l) w).
Proof.
  revert w. induction l as [|x l IH]; intros w; simpl.
  - rewrite app_nil_r, with_sent_same. reflexivity.
  - unfold bind, send_message at 1, modify. rewrite IH. simpl.
    rewrite <- app_assoc. reflexivity.
Qed.

Lemma broadcast_run w :
  broadcast_online_users_update w
  = (Ok tt,
     with_sent
       (sent w ++ broadcast_frames (online_users w)
                    (update_notification (online_users w) (users_db w)
                       (clock_reading (ticks w))))
       (with_ticks (S (ticks w)) w)).
Proof.
  unfold broadcast_online_users_update, bind, get_world.
  rewrite create_notification_run.
  rewrite (for_each_send (online_users w) (fun item => snd (snd item))
             (fun _ => notification_dict "update_online_users"
                [("online_users", JArr (map JStr (PyDict.keys (online_users w))));
                 ("registered_users", JArr (map JStr (PyDict.keys (users_db w))))]
                (clock_reading (ticks w)))).
  reflexivity.
Qed.

Lemma handle_logout_run user w :
  handle_logout user w
  = if PyDict.mem user (online_users w) then
      (Ok tt,
       with_sent
         (sent w ++ broadcast_frames (PyDict.del user (online_users w))
                      (update_notification (PyDict.del user (online_users w)) (users_db w)
                         (clock_reading (ticks w))))
         (with_ticks (S (ticks w)) (with_online_users (PyDict.del user (online_users w)) w)))
    else (Ok tt, w).
Proof.
  unfold handle_logout, bind, get_world.
  destruct (PyDict.mem user (online_users w)); [|reflexivity].
  unfold modify. rewrite broadcast_run. reflexivity.
Qed.

End BasicOperations.

(** ** The handlers, case by case

    Each handler is rewritten as one expression over the world it starts
    from: the conditions in the order in which the handler tests them, and
    for each outcome the response and the world it leaves. *)

Section Handlers.
Context {platform : Platform}.

(** *** register and login *)


Lemma handle_login_run fields name pw rd wr current_user w :
  PyDict.get_default "username" (JStr "") fields = JStr name ->
  PyDict.get_default "password" (JStr "") fields = JStr pw ->
  let username := PyStr.strip name in
  let password := PyStr.strip pw in
  let refuse message :=
    (Ok (response_dict "login" "error" None message (clock_reading (ticks w)), current_user),
     with_ticks (S (ticks w)) w) in
  handle_login (JObj fields) rd wr current_user w
  = if negb (PyStr.truthy username) || negb (PyStr.truthy password) then
      refuse "用户名和密码不能为空"
    else
      match PyDict.get username (users_db w) with
      | None => refuse "用户不存在"
      | Some u =>
          if negb (String.eqb (password_hash u) (hash_password password)) then
            refuse "密码错误"
          else if PyDict.mem username (online_users w) then
            refuse "用户已在线"
          else
            (Ok (response_dict "login" "success"
                   (Some (login_data (PyDict.set username (rd, wr) (online_users w))
                            (users_db w)))
                   "登录成功" (clock_reading (S (ticks w))),
                 Some username),
             after_login username rd wr w)
      end.
Proof.
  intros Hname Hpw username password refuse.
  unfold handle_login, field, json_get, json_strip, getitem, bind, ret, get_world, modify.
  rewrite Hname, Hpw. fold username password.
  destruct (negb (PyStr.truthy username) || negb (PyStr.truthy password)); [reflexivity|].
  unfold PyDict.mem at 1.
  destruct (PyDict.get username (users_db w)) as [u|] eqn:Hu; [|reflexivity].
  cbv beta iota. cbn [negb].
  destruct (negb (String.eqb (password_hash u) (hash_password password))); [reflexivity|].
  destruct (PyDict.mem username (online_users w)) eqn:Hon; [reflexivity|].
  cbn [online_users users_db offline_messages with_online_users].
  destruct (PyDict.mem username (offline_messages w)) eqn:Hq.
  - apply mem_get_some in Hq. destruct Hq as [queued Hq]. rewrite Hq.
    rewrite (for_each_send queued (fun _ => wr) (fun message => message)).
    rewrite broadcast_run, create_response_run.
    unfold after_login, PyDict.get_default. rewrite Hq.
    cbn. rewrite <- app_assoc. reflexivity.
  - rewrite broadcast_run, create_response_run.
    unfold after_login, PyDict.get_default.
    rewrite (del_absent _ _ Hq).
    apply mem_get_none in Hq. rewrite Hq.
    reflexivity.
Qed.

(** The conditions under which [handle_login] lets a user in. *)
Lemma handle_login_success fields name pw rd wr current_user u w :
  PyDict.get_default "username" (JStr "") fields = JStr name ->
  PyDict.get_default "password" (JStr "") fields = JStr pw ->
  PyStr.truthy (PyStr.strip name) = true ->
  PyStr.truthy (PyStr.strip pw) = true ->
  PyDict.get (PyStr.strip name) (users_db w) = Some u ->
  password_hash u = hash_password (PyStr.strip pw) ->
  PyDict.mem (PyStr.strip name) (online_users w) = false ->
  handle_login (JObj fields) rd wr current_user w
  = (Ok (response_dict "login" "success"
           (Some (login_data (PyDict.set (PyStr.strip name) (rd, wr) (online_users w))
                    (users_db w)))
           "登录成功" (clock_reading (S (ticks w))),
         Some (PyStr.strip name)),
     after_login (PyStr.strip name) rd wr w).
Proof.
  intros Hname Hpw Hu1 Hp1 Hu Hhash Hoff.
  rewrite (handle_login_run fields name pw rd wr current_user w Hname Hpw).
  cbv zeta. rewrite Hu1, Hp1, Hu, Hhash, String.eqb_refl, Hoff. reflexivity.
Qed.

(** *** private_chat *)

Lemma handle_private_chat_run fields to text sender w :
  PyDict.get_default "to" (JStr "") fields = JStr to ->
  PyDict.get_default "message" (JStr "") fields = JStr text ->
  let target := PyStr.strip to in
  let message := PyStr.strip text in
  let refuse reason :=
    (Ok (response_dict "private_chat" "error" None reason (clock_reading (ticks w))),
     with_ticks (S (ticks w)) w) in
  let notification := private_message sender message (clock_reading (ticks w)) in
  handle_private_chat (JObj fields) sender w
  = if negb (PyStr.truthy target) || negb (PyStr.truthy message) then
      refuse "目标用户和消息内容不能为空"
    else if String.eqb target sender then
      refuse "不能发送消息给自己"
    else if negb (PyDict.mem target (users_db w)) then
      refuse "目标用户不存在"
    else
      match PyDict.get target (online_users w) with
      | Some session =>
          (Ok (response_dict "private_chat" "success" None "消息已发送"
                 (clock_reading (S (ticks w)))),
           with_sent (sent w ++ [(snd session, notification)])
             (with_ticks (S (S (ticks w))) w))
      | None =>
          (Ok (response_dict "private_chat" "success" None
                 "目标用户不在线，消息已存储为离线消息" (clock_reading (S (ticks w)))),
           with_offline_messages
             (PyDict.set target
                (PyDict.get_default target [] (offline_messages w) ++ [notification])
                (offline_messages w))
             (with_ticks (S (S (ticks w))) w))
      end.
Proof.
  intros Hto Htext target message refuse notification.
  unfold handle_private_chat, field, json_get, json_strip, getitem, bind, ret,
    get_world, modify.
  rewrite Hto, Htext. fold target message.
  destruct (negb (PyStr.truthy target) || negb (PyStr.truthy message)); [reflexivity|].
  destruct (String.eqb target sender); [reflexivity|].
  destruct (negb (PyDict.mem target (users_db w))); [reflexivity|].
  rewrite create_notification_run.
  cbn [online_users offline_messages with_ticks].
  unfold PyDict.mem.
  destruct (PyDict.get target (online_users w)) as [session|] eqn:Hs.
  - unfold send_message, modify. reflexivity.
  - unfold PyDict.get_default.
    destruct (PyDict.get target (offline_messages w)) as [queue|] eqn:Hq; cbn.
    + rewrite Hq. reflexivity.
    + rewrite get_set_same. cbn. rewrite set_set. reflexivity.
Qed.



(** *** group_chat, create_group and join_group *)

Lemma recipients_spec members sender sessions member :
  In member (recipients members sender sessions)
  <-> In member members /\ member <> sender /\ PyDict.mem member sessions = true.
Proof.
  unfold recipients. rewrite filter_In, andb_true_iff, negb_true_iff, String.eqb_neq.
  tauto.
Qed.

(** The loop sends one frame to each recipient and counts them. *)
Lemma group_chat_loop_run members sender notification sent_count w :
  group_chat_loop members sender notification sent_count w
  = (Ok (sent_count + Z.of_nat (length (recipients members sender (online_users w))))%Z,
     with_sent
       (sent w ++ map (fun member => (session_writer (online_users w) member, notification))
                      (recipients members sender (online_users w)))
       w).
Proof.
  revert sent_count w. induction members as [|member rest IH]; intros sent_count w.
  - cbn. rewrite app_nil_r, with_sent_same, Z.add_0_r. reflexivity.
  - cbn [group_chat_loop recipients filter].
    unfold bind at 1, get_world at 1.
    destruct (negb (String.eqb member sender) && PyDict.mem member (online_users w)) eqn:Hc.
    + apply andb_prop in Hc. destruct Hc as [_ Hon].
      apply mem_get_some in Hon. destruct Hon as [session Hs].
      unfold bind at 1, getitem. rewrite Hs. unfold ret at 1.
      unfold bind at 1, send_message at 1, modify.
      rewrite IH. cbn [online_users sent with_sent length map].
      unfold session_writer at 2. rewrite Hs.
      fold (recipients rest sender (online_users w)).
      rewrite <- app_assoc. cbn [app].
      f_equal. f_equal. lia.
    + rewrite IH. reflexivity.
Qed.

Lemma handle_group_chat_run fields group text sender w :
  PyDict.get_default "group" (JStr "") fields = JStr group ->
  PyDict.get_default "message" (JStr "") fields = JStr text ->
  let group_name := PyStr.strip group in
  let message := PyStr.strip text in
  let refuse reason :=
    (Ok (response_dict "group_chat" "error" None reason (clock_reading (ticks w))),
     with_ticks (S (ticks w)) w) in
  let notification := group_message sender group_name message (clock_reading (ticks w)) in
  handle_group_chat (JObj fields) sender w
  = if negb (PyStr.truthy group_name) || negb (PyStr.truthy message) then
      refuse "群名和消息内容不能为空"
    else
      match PyDict.get group_name (groups w) with
      | None => refuse "群组不存在"
      | Some members =>
          if negb (set_mem string_dec sender members) then
            refuse "您不在该群组中"
          else
            let reached := recipients members sender (online_users w) in
            (Ok (response_dict "group_chat" "success"
                   (Some [("sent_to", JInt (Z.of_nat (length reached)))])
                   "消息已发送" (clock_reading (S (ticks w)))),
             with_sent
               (sent w ++ map (fun member =>
                                 (session_writer (online_users w) member, notification))
                              reached)
               (with_ticks (S (S (ticks w))) w))
      end.
Proof.
  intros Hgroup Htext group_name message refuse notification.
  unfold handle_group_chat, field, json_get, json_strip, getitem, bind, ret, get_world.
  rewrite Hgroup, Htext. fold group_name message.
  destruct (negb (PyStr.truthy group_name) || negb (PyStr.truthy message)); [reflexivity|].
  unfold PyDict.mem.
  destruct (PyDict.get group_name (groups w)) as [members|]; [|reflexivity].
  cbn [negb].
  destruct (negb (set_mem string_dec sender members)); [reflexivity|].
  rewrite create_notification_run, group_chat_loop_run, create_response_run.
  reflexivity.
Qed.



(** *** The dispatch and the end of a connection *)

Lemma dispatch_login data rd wr current_user w :
  dispatch (request "login" data) rd wr current_user w
  = handle_login data rd wr current_user w.
Proof. reflexivity. Qed.




End Handlers.

(** ** Invariants of the registries *)

Lemma initial_world_well_formed : well_formed initial_world.
Proof. split; cbn; try constructor; discriminate. Qed.

(** Being well formed is a property of the four dictionaries. *)
Lemma well_formed_registries w w' :
  registries w' = registries w -> well_formed w -> well_formed w'.
Proof.
  unfold registries. intros H [H1 H2 H3 H4 H5 H6 H7 H8]. injection H as Ho Hu Hg Hq.
  split; rewrite ?Ho, ?Hu, ?Hg, ?Hq; assumption.
Qed.

Lemma well_formed_register username u w :
  well_formed w -> well_formed (with_users_db (PyDict.set username u (users_db w)) w).
Proof.
  intros [H1 H2 H3 H4 H5 H6 H7 H8]. split; cbn; try assumption.
  - apply keys_set_NoDup, H2.
  - intros v Hv. apply mem_set_mono, H6, Hv.
  - intros v Hv. apply mem_set_mono, H7, Hv.
Qed.

Lemma well_formed_login username session w :
  PyDict.mem username (users_db w) = true ->
  well_formed w ->
  well_formed
    (with_offline_messages (PyDict.del username (offline_messages w))
       (with_online_users (PyDict.set username session (online_users w)) w)).
Proof.
  intros Hreg [H1 H2 H3 H4 H5 H6 H7 H8]. split; cbn; try assumption.
  - apply keys_set_NoDup, H1.
  - apply keys_del_NoDup, H4.
  - intros v Hv. apply mem_set_cases in Hv. destruct Hv as [->|Hv]; [exact Hreg | apply H6, Hv].
  - intros v Hv. apply mem_del_cases in Hv. apply H7, Hv.
  - intros v Hv. apply mem_set_cases in Hv. destruct Hv as [->|Hv].
    + apply mem_del_same.
    + destruct (String.eqb username v) eqn:E.
      * apply String.eqb_eq in E. subst. apply mem_del_same.
      * apply String.eqb_neq in E. rewrite (mem_del_other _ _ _ E). apply H8, Hv.
Qed.

Lemma well_formed_logout user w :
  well_formed w -> well_formed (with_online_users (PyDict.del user (online_users w)) w).
Proof.
  intros [H1 H2 H3 H4 H5 H6 H7 H8]. split; cbn; try assumption.
  - apply keys_del_NoDup, H1.
  - intros v Hv. apply mem_del_cases in Hv. apply H6, Hv.
  - intros v Hv. apply mem_del_cases in Hv. apply H8, Hv.
Qed.

Lemma well_formed_enqueue target queue w :
  PyDict.mem target (users_db w) = true ->
  PyDict.mem target (online_users w) = false ->
  well_formed w ->
  well_formed (with_offline_messages (PyDict.set target queue (offline_messages w)) w).
Proof.
  intros Hreg Hoff [H1 H2 H3 H4 H5 H6 H7 H8]. split; cbn; try assumption.
  - apply keys_set_NoDup, H4.
  - intros v Hv. apply mem_set_cases in Hv. destruct Hv as [->|Hv]; [exact Hreg | apply H7, Hv].
  - intros v Hv. destruct (String.eqb target v) eqn:E.
    + apply String.eqb_eq in E. subst. congruence.
    + apply String.eqb_neq in E. rewrite (mem_set_other _ _ _ _ E). apply H8, Hv.
Qed.

Lemma well_formed_group group_name members w :
  NoDup members ->
  well_formed w ->
  well_formed (with_groups (PyDict.set group_name members (groups w)) w).
Proof.
  intros Hm [H1 H2 H3 H4 H5 H6 H7 H8]. split; cbn; try assumption.
  - apply keys_set_NoDup, H3.
  - apply Forall_set; [intros k0; exact Hm | exact H5].
Qed.

(** The world differs from a well-formed one in its log or its clock only. *)
Ltac same_registries :=
  match goal with
  | Hw : well_formed ?w |- well_formed _ =>
      apply (well_formed_registries w); [reflexivity | exact Hw]
  end.

Section Invariants.
Context {platform : Platform}.

(** Reading a field leaves the world as it is, whether it raises or not. *)
Lemma bind_field {B : Type} data key (k : string -> M B) w :
  bind (field data key) k w
  = match fst (field data key w) with
    | Ok s => k s w
    | Raise e => (Raise e, w)
    end.
Proof.
  unfold bind, field, json_get, json_strip, bind, ret, raise.
  destruct data; try reflexivity.
  destruct (PyDict.get_default key (JStr "") fields); reflexivity.
Qed.

Lemma broadcast_registries w :
  registries (snd (broadcast_online_users_update w)) = registries w.
Proof. rewrite broadcast_run. reflexivity. Qed.

Lemma handle_register_well_formed data wr w :
  well_formed w -> well_formed (snd (handle_register data wr w)).
Proof.
  intros Hw. unfold handle_register.
  rewrite bind_field. destruct (fst (field data "username" w)) as [username|]; [|exact Hw].
  rewrite bind_field. destruct (fst (field data "password" w)) as [password|]; [|exact Hw].
  destruct (negb (PyStr.truthy username) || negb (PyStr.truthy password)).
  { rewrite create_response_run. same_registries. }
  unfold bind at 1, get_world at 1.
  destruct (PyDict.mem username (users_db w)).
  { rewrite create_response_run. same_registries. }
  unfold bind, time_time, modify. rewrite broadcast_run, create_response_run. cbn [snd].
  eapply well_formed_registries; [|eapply (well_formed_register username); exact Hw].
  reflexivity.
Qed.

Lemma handle_login_well_formed data rd wr current_user w :
  well_formed w -> well_formed (snd (handle_login data rd wr current_user w)).
Proof.
  intros Hw. unfold handle_login.
  rewrite bind_field. destruct (fst (field data "username" w)) as [username|]; [|exact Hw].
  rewrite bind_field. destruct (fst (field data "password" w)) as [password|]; [|exact Hw].
  destruct (negb (PyStr.truthy username) || negb (PyStr.truthy password)).
  { unfold bind. rewrite create_response_run. same_registries. }
  unfold bind at 1, get_world at 1.
  destruct (PyDict.mem username (users_db w)) eqn:Hreg; cbn [negb].
  2:{ unfold bind. rewrite create_response_run.
      same_registries. }
  unfold bind at 1, getitem.
  destruct (PyDict.get username (users_db w)) as [u|]; [|exact Hw].
  unfold ret at 1.
  destruct (negb (String.eqb (password_hash u) (hash_password password))).
  { unfold bind. rewrite create_response_run. same_registries. }
  destruct (PyDict.mem username (online_users w)).
  { unfold bind. rewrite create_response_run. same_registries. }
  unfold bind, modify, get_world, ret.
  cbn [online_users users_db offline_messages with_online_users].
  destruct (PyDict.mem username (offline_messages w)) eqn:Hq.
  - apply mem_get_some in Hq. destruct Hq as [queued Hq]. rewrite Hq.
    rewrite (for_each_send queued (fun _ => wr) (fun message => message)).
    rewrite broadcast_run, create_response_run. cbn [snd].
    eapply well_formed_registries; [|apply (well_formed_login username (rd, wr) w Hreg Hw)].
    reflexivity.
  - rewrite broadcast_run, create_response_run. cbn [snd].
    eapply well_formed_registries; [|apply (well_formed_login username (rd, wr) w Hreg Hw)].
    unfold registries. cbn. rewrite (del_absent _ _ Hq). reflexivity.
Qed.

Lemma handle_private_chat_well_formed data sender w :
  well_formed w -> well_formed (snd (handle_private_chat data sender w)).
Proof.
  intros Hw. unfold handle_private_chat.
  rewrite bind_field. destruct (fst (field data "to" w)) as [target|]; [|exact Hw].
  rewrite bind_field. destruct (fst (field data "message" w)) as [message|]; [|exact Hw].
  destruct (negb (PyStr.truthy target) || negb (PyStr.truthy message)).
  { rewrite create_response_run. same_registries. }
  destruct (String.eqb target sender).
  { rewrite create_response_run. same_registries. }
  unfold bind at 1, get_world at 1.
  destruct (PyDict.mem target (users_db w)) eqn:Hreg; cbn [negb].
  2:{ rewrite create_response_run. same_registries. }
  unfold bind at 1. rewrite create_notification_run.
  cbn [online_users offline_messages with_ticks].
  destruct (PyDict.mem target (online_users w)) eqn:Hon.
  - apply mem_get_some in Hon. destruct Hon as [session Hs].
    unfold bind, getitem, send_message, modify, ret. cbn [online_users with_ticks].
    rewrite Hs, create_response_run. same_registries.
  - unfold bind, getitem, modify, get_world, ret.
    cbn [online_users offline_messages with_ticks with_offline_messages].
    destruct (PyDict.mem target (offline_messages w)) eqn:Hq; cbn [negb].
    + apply mem_get_some in Hq. destruct Hq as [queue Hq].
      cbn [offline_messages with_ticks]. rewrite Hq, create_response_run. cbn [snd].
      eapply well_formed_registries;
        [|eapply (well_formed_enqueue target); [exact Hreg | exact Hon | exact Hw]].
      reflexivity.
    + cbn [offline_messages with_ticks with_offline_messages].
      rewrite get_set_same, create_response_run. cbn [snd].
      eapply well_formed_registries;
        [|eapply (well_formed_enqueue target); [exact Hreg | exact Hon | exact Hw]].
      unfold registries. cbn. rewrite set_set. reflexivity.
Qed.

Lemma handle_group_chat_well_formed data sender w :
  well_formed w -> well_formed (snd (handle_group_chat data sender w)).
Proof.
  intros Hw. unfold handle_group_chat.
  rewrite bind_field. destruct (fst (field data "group" w)) as [group_name|]; [|exact Hw].
  rewrite bind_field. destruct (fst (field data "message" w)) as [message|]; [|exact Hw].
  destruct (negb (PyStr.truthy group_name) || negb (PyStr.truthy message)).
  { rewrite create_response_run. same_registries. }
  unfold bind at 1, get_world at 1.
  destruct (PyDict.mem group_name (groups w)); cbn [negb].
  2:{ rewrite create_response_run. same_registries. }
  unfold bind at 1, getitem.
  destruct (PyDict.get group_name (groups w)) as [members|]; [|exact Hw].
  unfold ret at 1.
  destruct (negb (set_mem string_dec sender members)).
  { rewrite create_response_run. same_registries. }
  unfold bind. rewrite create_notification_run, group_chat_loop_run, create_response_run.
  same_registries.
Qed.

Lemma handle_create_group_well_formed data creator w :
  well_formed w -> well_formed (snd (handle_create_group data creator w)).
Proof.
  intros Hw. unfold handle_create_group.
  rewrite bind_field. destruct (fst (field data "group_name" w)) as [group_name|]; [|exact Hw].
  destruct (negb (PyStr.truthy group_name)).
  { rewrite create_response_run. same_registries. }
  unfold bind at 1, get_world at 1.
  destruct (PyDict.mem group_name (groups w)).
  { rewrite create_response_run. same_registries. }
  unfold bind, modify. rewrite create_response_run. cbn [snd].
  eapply well_formed_registries;
    [|eapply (well_formed_group group_name [creator]); [|exact Hw]].
  - reflexivity.
  - repeat constructor. intros [].
Qed.

Lemma handle_join_group_well_formed data user w :
  well_formed w -> well_formed (snd (handle_join_group data user w)).
Proof.
  intros Hw. unfold handle_join_group.
  rewrite bind_field. destruct (fst (field data "group_name" w)) as [group_name|]; [|exact Hw].
  destruct (negb (PyStr.truthy group_name)).
  { rewrite create_response_run. same_registries. }
  unfold bind at 1, get_world at 1.
  destruct (PyDict.mem group_name (groups w)); cbn [negb].
  2:{ rewrite create_response_run. same_registries. }
  unfold bind at 1, getitem.
  destruct (PyDict.get group_name (groups w)) as [members|] eqn:Hg; [|exact Hw].
  unfold ret at 1.
  destruct (set_mem string_dec user members).
  { rewrite create_response_run. same_registries. }
  unfold bind, modify. rewrite create_response_run. cbn [snd].
  eapply well_formed_registries;
    [|eapply (well_formed_group group_name (set_add string_dec user members)); [|exact Hw]].
  - reflexivity.
  - apply set_add_nodup.
    apply get_In in Hg.
    exact (proj1 (Forall_forall _ _) (members_unique w Hw) _ Hg).
Qed.

Lemma handle_list_groups_well_formed data user w :
  well_formed w -> well_formed (snd (handle_list_groups data user w)).
Proof.
  intros Hw. unfold handle_list_groups, bind, get_world.
  rewrite create_response_run. same_registries.
Qed.

Lemma handle_logout_well_formed user w :
  well_formed w -> well_formed (snd (handle_logout user w)).
Proof.
  intros Hw. rewrite handle_logout_run.
  destruct (PyDict.mem user (online_users w)); [|exact Hw].
  cbn [snd].
  eapply well_formed_registries; [|apply (well_formed_logout user w Hw)].
  reflexivity.
Qed.

(** Every message, whatever its type and its data, leaves the registries well
    formed, also when the handler raises. *)
Lemma dispatch_well_formed message rd wr current_user w :
  well_formed w -> well_formed (snd (dispatch message rd wr current_user w)).
Proof.
  intros Hw. unfold dispatch, json_get.
  destruct message; try exact Hw.
  unfold bind at 1, ret at 1. unfold bind at 1, ret at 1.
  set (msg_type := PyDict.get_default "type" (JStr "") fields).
  set (data := PyDict.get_default "data" (JObj []) fields).
  destruct (json_eq_str msg_type "register").
  { unfold bind, ret.
    pose proof (handle_register_well_formed data wr w Hw) as H.
    destruct (handle_register data wr w) as [[r|e] w']; exact H. }
  destruct (json_eq_str msg_type "login").
  { apply handle_login_well_formed, Hw. }
  destruct (json_eq_str msg_type "logout").
  { destruct (bound_user current_user) as [user|].
    - unfold bind at 1.
      pose proof (handle_logout_well_formed user w Hw) as H.
      destruct (handle_logout user w) as [[[]|e] w']; [|exact H].
      unfold bind, ret. rewrite create_response_run. cbn [snd] in *. same_registries.
    - unfold bind, ret. rewrite create_response_run. same_registries. }
  destruct (bound_user current_user) as [user|].
  2:{ unfold bind, ret. rewrite create_response_run. same_registries. }
  unfold bind, ret.
  assert (Hcase : forall (m : M json),
             well_formed (snd (m w)) ->
             well_formed (snd (let (r, w') := m w in
                               match r with
                               | Ok a => (Ok (a, current_user), w')
                               | Raise e => (Raise e, w')
                               end))).
  { intros m H. destruct (m w) as [[r|e] w']; exact H. }
  apply Hcase.
  destruct (json_eq_str msg_type "private_chat");
    [apply handle_private_chat_well_formed, Hw|].
  destruct (json_eq_str msg_type "group_chat");
    [apply handle_group_chat_well_formed, Hw|].
  destruct (json_eq_str msg_type "create_group");
    [apply handle_create_group_well_formed, Hw|].
  destruct (json_eq_str msg_type "join_group");
    [apply handle_join_group_well_formed, Hw|].
  destruct (json_eq_str msg_type "list_groups");
    [apply handle_list_groups_well_formed, Hw|].
  rewrite create_response_run. same_registries.
Qed.

Lemma handle_raw_well_formed raw rd wr current_user w :
  well_formed w -> well_formed (snd (handle_raw raw rd wr current_user w)).
Proof.
  intros Hw. unfold handle_raw.
  destruct (json_loads raw) as [message|].
  - pose proof (dispatch_well_formed message rd wr current_user w Hw) as H.
    destruct (dispatch message rd wr current_user w) as [[[response cell]|e] w'];
      cbn [snd] in *; unfold run, bind, send_message, modify;
      rewrite ?create_response_run; cbn [snd]; same_registries.
  - cbn [snd]. unfold run, bind, send_message, modify. rewrite create_response_run.
    same_registries.
Qed.

Lemma cleanup_well_formed wr current_user w :
  well_formed w -> well_formed (cleanup wr current_user w).
Proof.
  intros Hw. unfold cleanup.
  set (w' := match bound_user current_user with
             | Some user =>
                 if PyDict.mem user (online_users w) then run (handle_logout user) w else w
             | None => w
             end).
  assert (H : well_formed w').
  { unfold w'. destruct (bound_user current_user) as [user|]; [|exact Hw].
    destruct (PyDict.mem user (online_users w)); [|exact Hw].
    apply handle_logout_well_formed, Hw. }
  same_registries.
Qed.

(** The registries are well formed when the server starts and stay so
    through the whole life of a connection. *)
Lemma handle_client_well_formed fuel r rd wr w w' :
  well_formed w -> handle_client fuel r rd wr w = Some w' -> well_formed w'.
Proof.
  unfold handle_client. intros Hw.
  assert (Hloop : forall fuel r cell w cell' w',
             well_formed w ->
             read_loop fuel r rd wr cell w = Some (cell', w') -> well_formed w').
  { clear. induction fuel as [|fuel IH]; intros r cell w cell' w' Hw; cbn [read_loop];
      [discriminate|].
    destruct (receive_message r) as [raw r1].
    destruct (negb (PyStr.truthy raw)).
    - intros H. injection H as _ <-. exact Hw.
    - pose proof (handle_raw_well_formed raw rd wr cell w Hw) as H.
      destruct (handle_raw raw rd wr cell w) as [cell1 w1]. apply IH. exact H. }
  destruct (read_loop fuel r rd wr None w) as [[cell w1]|] eqn:Hrun; [|discriminate].
  intros H. injection H as <-. apply cleanup_well_formed.
  exact (Hloop _ _ _ _ _ _ Hw Hrun).
Qed.

End Invariants.

(** ** Frames *)

(** [length] rounds are enough for the loop of [receive_message]: every round
    that goes on has read at least one byte. *)
Lemma read_payload_fuel fuel len message_bytes r :
  (len - Z.of_nat (length message_bytes) <= Z.of_nat fuel)%Z ->
  read_payload fuel len message_bytes r <> None.
Proof.
  revert message_bytes r. induction fuel as [|fuel IH]; intros message_bytes r Hfuel.
  - cbn. destruct (Z.of_nat (length message_bytes) <? len)%Z eqn:E; [|discriminate].
    apply Z.ltb_lt in E. lia.
  - cbn [read_payload].
    destruct (Z.of_nat (length message_bytes) <? len)%Z eqn:E; [|discriminate].
    destruct (read (Z.to_nat (len - Z.of_nat (length message_bytes))) r) as [chunk r'].
    destruct chunk as [|b chunk]; [discriminate|].
    apply IH. rewrite length_app. cbn [length]. lia.
Qed.

(** So the loop of [receive_message] is never cut short. *)
Lemma receive_message_fuel length_bytes r :
  read_payload (Z.to_nat (PyStr.int_from_bytes_big length_bytes))
    (PyStr.int_from_bytes_big length_bytes) [] r <> None.
Proof. apply read_payload_fuel. cbn [length]. lia. Qed.

(** ** The claims of the specification

    C1 to C10, in this order. Where a claim fails on the code, the theorem is
    the claim as amended, and the input on which the claim fails is among the
    examples that follow. *)

Section Claims.
Context {platform : Platform}.

(** C1 (the behaviour of the code where the claim fails). A login request on
    a connection that is bound to [user], for another registered user
    [username] who is offline and with the right password, is let in: the
    response is the success response, the cell is bound to [username], and
    [online_users] holds a session for [username] next to the one of [user].
    The session of [user] outlives the connection: the clean-up at the end of
    the connection removes the session of [username] only. *)
Theorem login_on_bound_connection fields name pw rd wr user u w :
  PyDict.get_default "username" (JStr "") fields = JStr name ->
  PyDict.get_default "password" (JStr "") fields = JStr pw ->
  PyStr.truthy (PyStr.strip name) = true ->
  PyStr.truthy (PyStr.strip pw) = true ->
  PyDict.get (PyStr.strip name) (users_db w) = Some u ->
  password_hash u = hash_password (PyStr.strip pw) ->
  PyDict.mem (PyStr.strip name) (online_users w) = false ->
  PyDict.mem user (online_users w) = true ->
  exists r w',
    dispatch (request "login" (JObj fields)) rd wr (Some user) w
    = (Ok (r, Some (PyStr.strip name)), w')
    /\ status_of r = Some (JStr "success")
    /\ online_users w' = PyDict.set (PyStr.strip name) (rd, wr) (online_users w)
    /\ PyDict.mem (PyStr.strip name) (online_users w') = true
    /\ PyDict.mem user (online_users w') = true
    /\ PyDict.mem user (online_users (cleanup wr (Some (PyStr.strip name)) w')) = true.
Proof.
  intros Hname Hpw Hu1 Hp1 Hu Hhash Hoff Hon.
  assert (Hne : PyStr.strip name <> user) by (intros E; rewrite E in Hoff; congruence).
  rewrite dispatch_login.
  rewrite (handle_login_success fields name pw rd wr (Some user) u w
             Hname Hpw Hu1 Hp1 Hu Hhash Hoff).
  eexists. eexists. split; [reflexivity|].
  split; [reflexivity|]. split; [reflexivity|].
  split; [apply mem_set_same|].
  split; [cbn [after_login online_users]; rewrite mem_set_other; assumption|].
  unfold cleanup, bound_user, bound. rewrite Hu1.
  cbn [after_login online_users].
  rewrite (mem_set_same (PyStr.strip name) (rd, wr) (online_users w)).
  unfold run. rewrite handle_logout_run.
  cbn [after_login online_users].
  rewrite (mem_set_same (PyStr.strip name) (rd, wr) (online_users w)).
  cbn [snd online_users with_closed with_sent with_ticks with_online_users].
  unfold PyDict.mem. rewrite get_del_other by assumption.
  rewrite get_set_other by assumption.
  exact Hon.
Qed.



(** C4 (amended). With [target] and [message] the fields "to" and "message"
    of the request without their surrounding whitespace, private_chat answers
    with an error response exactly when [target] is empty, [message] is
    empty, [target] is the sender or [target] is not registered, and then it
    changes none of the dictionaries and sends nothing. Otherwise it builds
    the private_message notification of the sender and [message]; when
    [target] has a session the notification is sent to the writer of that
    session, the answer is "sent" and the dictionaries stay as they are; when
    it has none, the notification goes to the end of the queue of [target],
    nothing is sent and the answer is "stored offline". *)
Theorem private_chat_outcome fields to text sender w :
  PyDict.get_default "to" (JStr "") fields = JStr to ->
  PyDict.get_default "message" (JStr "") fields = JStr text ->
  exists r w',
    handle_private_chat (JObj fields) sender w = (Ok r, w')
    /\ (status_of r = Some (JStr "error")
        <-> PyStr.strip to = "" \/ PyStr.strip text = "" \/ PyStr.strip to = sender
            \/ PyDict.mem (PyStr.strip to) (users_db w) = false)
    /\ (status_of r = Some (JStr "error") -> registries w' = registries w /\ sent w' = sent w)
    /\ (status_of r <> Some (JStr "error") ->
        status_of r = Some (JStr "success")
        /\ match PyDict.get (PyStr.strip to) (online_users w) with
           | Some session =>
               message_of r = Some (JStr "消息已发送")
               /\ sent w'
                  = sent w ++ [(snd session,
                                private_message sender (PyStr.strip text)
                                  (clock_reading (ticks w)))]
               /\ registries w' = registries w
           | None =>
               message_of r = Some (JStr "目标用户不在线，消息已存储为离线消息")
               /\ sent w' = sent w
               /\ offline_messages w'
                  = PyDict.set (PyStr.strip to)
                      (PyDict.get_default (PyStr.strip to) [] (offline_messages w)
                       ++ [private_message sender (PyStr.strip text)
                             (clock_reading (ticks w))])
                      (offline_messages w)
               /\ online_users w' = online_users w
               /\ users_db w' = users_db w
               /\ groups w' = groups w
           end).
Proof.
  intros Hto Htext.
  rewrite (handle_private_chat_run fields to text sender w Hto Htext). cbv zeta.
  destruct (PyStr.truthy (PyStr.strip to)) eqn:Ht; cbn [negb orb].
  2:{ apply truthy_false in Ht. eexists. eexists. split; [reflexivity|].
      split; [split; [intros _; left; exact Ht | reflexivity]|].
      split; [intros _; split; reflexivity|].
      intros Hne. exfalso. apply Hne. reflexivity. }
  destruct (PyStr.truthy (PyStr.strip text)) eqn:Hm; cbn [negb].
  2:{ apply truthy_false in Hm. eexists. eexists. split; [reflexivity|].
      split; [split; [intros _; right; left; exact Hm | reflexivity]|].
      split; [intros _; split; reflexivity|].
      intros Hne. exfalso. apply Hne. reflexivity. }
  destruct (String.eqb (PyStr.strip to) sender) eqn:Hself.
  { apply String.eqb_eq in Hself. eexists. eexists. split; [reflexivity|].
    split; [split; [intros _; right; right; left; exact Hself | reflexivity]|].
    split; [intros _; split; reflexivity|].
    intros Hne. exfalso. apply Hne. reflexivity. }
  destruct (PyDict.mem (PyStr.strip to) (users_db w)) eqn:Hreg; cbn [negb].
  2:{ eexists. eexists. split; [reflexivity|].
      split; [split; [intros _; right; right; right; reflexivity | reflexivity]|].
      split; [intros _; split; reflexivity|].
      intros Hne. exfalso. apply Hne. reflexivity. }
  apply truthy_true in Ht, Hm. apply String.eqb_neq in Hself.
  assert (Hnone : ~ (PyStr.strip to = "" \/ PyStr.strip text = ""
                     \/ PyStr.strip to = sender \/ true = false))
    by (intros [H|[H|[H|H]]]; congruence).
  destruct (PyDict.get (PyStr.strip to) (online_users w)) as [session|].
  - eexists. eexists. split; [reflexivity|].
    split; [split; [discriminate | intros H; contradiction]|].
    split; [discriminate|].
    intros _. repeat split.
  - eexists. eexists. split; [reflexivity|].
    split; [split; [discriminate | intros H; contradiction]|].
    split; [discriminate|].
    intros _. repeat split.
Qed.


(** C6 (amended). For a member [sender] of a group that exists, a group_chat
    request whose group field names the group and whose text is not empty
    once its surrounding whitespace is removed is answered with the success
    response. The group_message notification of the sender, the group and the
    trimmed text is sent to the writers of the sessions of the members in
    [recipients], one frame for each and nothing else: these are the members
    other than the sender who have a session, each of them once. The
    dictionaries stay as they are, so nothing is queued for the members
    without a session, and sent_to is the number of the frames. *)
Theorem group_chat_delivery fields group text sender members w :
  PyDict.get_default "group" (JStr "") fields = JStr group ->
  PyDict.get_default "message" (JStr "") fields = JStr text ->
  PyStr.strip group <> "" ->
  PyStr.strip text <> "" ->
  PyDict.get (PyStr.strip group) (groups w) = Some members ->
  set_mem string_dec sender members = true ->
  let reached := recipients members sender (online_users w) in
  let notification :=
    group_message sender (PyStr.strip group) (PyStr.strip text) (clock_reading (ticks w)) in
  exists r w',
    handle_group_chat (JObj fields) sender w = (Ok r, w')
    /\ status_of r = Some (JStr "success")
    /\ member "data" r = Some (JObj [("sent_to", JInt (Z.of_nat (length reached)))])
    /\ sent w'
       = sent w ++ map (fun member => (session_writer (online_users w) member, notification))
                       reached
    /\ length (sent w') = (length (sent w) + length reached)%nat
    /\ registries w' = registries w
    /\ (forall member,
          In member reached
          <-> In member members /\ member <> sender
              /\ exists session, PyDict.get member (online_users w) = Some session)
    /\ (well_formed w -> NoDup reached).
Proof.
  intros Hgroup Htext Hg Hm Hmembers Hin reached notification.
  rewrite (handle_group_chat_run fields group text sender w Hgroup Htext). cbv zeta.
  apply truthy_true in Hg, Hm. rewrite Hg, Hm, Hmembers, Hin. cbn [negb orb].
  fold reached notification.
  eexists. eexists. split; [reflexivity|].
  split; [reflexivity|].
  split; [reflexivity|].
  split; [reflexivity|].
  split; [cbn [sent with_sent]; rewrite length_app, length_map; reflexivity|].
  split; [reflexivity|].
  split.
  - intros member. rewrite <- mem_get_some. apply recipients_spec.
  - intros Hw. apply NoDup_filter.
    exact (proj1 (Forall_forall _ _) (members_unique w Hw) _ (get_In _ _ _ Hmembers)).
Qed.





End Claims.

(** * The claims on the examples

    Each theorem is applied to the platform and the worlds of [Demo]; where a
    claim of the specification fails on the code, the input that shows it
    comes first. *)

(** C1: alice is logged in on connection 1 and sends a login request for bob.
    The request is let in; the connection is now bob's, and the session of
    alice is still in [online_users] after the connection was closed. *)
Lemma login_on_bound_connection_witness :
  exists r w',
    dispatch (platform := Demo.platform) (request "login" (credentials "bob" "p3")) 1 1
      (Some "alice") Demo.alice_online
    = (Ok (r, Some "bob"), w')
    /\ status_of r = Some (JStr "success")
    /\ PyDict.keys (online_users w') = ["alice"; "bob"]
    /\ PyDict.keys (online_users (cleanup (platform := Demo.platform) 1 (Some "bob") w'))
       = ["alice"].
Proof.
  destruct (login_on_bound_connection (platform := Demo.platform)
              [("username", JStr "bob"); ("password", JStr "p3")] "bob" "p3" 1 1 "alice"
              (mkUser (Demo.sha256 "p3") (Demo.clock 3)) Demo.alice_online
              eq_refl eq_refl eq_refl eq_refl eq_refl eq_refl eq_refl eq_refl)
    as (r & w' & Hrun & Hstatus & Hsessions & _).
  exists r, w'. split; [exact Hrun|]. split; [exact Hstatus|].
  split; [rewrite Hsessions; reflexivity|].
  unfold cleanup, run. cbn [bound_user bound PyStr.truthy].
  rewrite handle_logout_run, Hsessions. reflexivity.
Defined.




(** C4, where the claim fails: alice sends bob, who is registered and online,
    a text that is one space. None of the four conditions of the claim holds
    of the fields as they were sent, and the answer is an error response. *)
Lemma private_chat_blank_text :
  "bob" <> "" /\ " " <> "" /\ "bob" <> "alice"
  /\ PyDict.mem "bob" (users_db Demo.all_online) = true
  /\ exists r w',
       handle_private_chat (platform := Demo.platform) (private_chat_data "bob" " ") "alice"
         Demo.all_online
       = (Ok r, w')
       /\ status_of r = Some (JStr "error")
       /\ sent w' = sent Demo.all_online.
Proof.
  split; [discriminate|]. split; [discriminate|]. split; [discriminate|].
  split; [reflexivity|].
  eexists. eexists. split; [reflexivity|]. split; reflexivity.
Qed.

(** C4: a text with a space at its end reaches bob without the space. *)
Lemma private_chat_outcome_witness :
  exists r w',
    handle_private_chat (platform := Demo.platform) (private_chat_data " bob" "hello ")
      "alice" Demo.all_online
    = (Ok r, w')
    /\ message_of r = Some (JStr "消息已发送")
    /\ sent w' = sent Demo.all_online ++ [(2, private_message "alice" "hello" (Demo.clock 15))].
Proof.
  destruct (private_chat_outcome (platform := Demo.platform)
              [("to", JStr " bob"); ("message", JStr "hello ")] " bob" "hello " "alice"
              Demo.all_online eq_refl eq_refl)
    as (r & w' & Hrun & Herror & _ & Hsuccess).
  exists r, w'. split; [exact Hrun|].
  assert (Hok : status_of r <> Some (JStr "error")).
  { intros H. apply Herror in H. destruct H as [H|[H|[H|H]]]; discriminate. }
  destruct (Hsuccess Hok) as (_ & Hmessage & Hsent & _).
  split; [exact Hmessage | exact Hsent].
Defined.



(** C6, where the claim fails: alice is a member of "team", bob is the other
    member and is online, and alice sends the group a text that is one space:
    the text is not empty, and yet the answer is an error response and bob
    receives nothing. *)
Lemma group_chat_blank_text :
  " " <> ""
  /\ PyDict.get "team" (groups Demo.with_team) = Some ["alice"; "bob"]
  /\ PyDict.mem "bob" (online_users Demo.with_team) = true
  /\ exists r w',
       handle_group_chat (platform := Demo.platform) (group_chat_data "team" " ") "alice"
         Demo.with_team
       = (Ok r, w')
       /\ status_of r = Some (JStr "error")
       /\ sent w' = sent Demo.with_team.
Proof.
  split; [discriminate|]. split; [reflexivity|]. split; [reflexivity|].
  eexists. eexists. split; [reflexivity|]. split; reflexivity.
Qed.

(** C6: the text of alice reaches bob, the only other member, trimmed. *)
Lemma group_chat_delivery_witness :
  exists r w',
    handle_group_chat (platform := Demo.platform) (group_chat_data "team" " hi ") "alice"
      Demo.with_team
    = (Ok r, w')
    /\ member "data" r = Some (JObj [("sent_to", JInt 1)])
    /\ sent w'
       = sent Demo.with_team ++ [(2, group_message "alice" "team" "hi" (Demo.clock 17))].
Proof.
  destruct (group_chat_delivery (platform := Demo.platform)
              [("group", JStr "team"); ("message", JStr " hi ")] "team" " hi " "alice"
              ["alice"; "bob"] Demo.with_team eq_refl eq_refl
              ltac:(discriminate) ltac:(discriminate) eq_refl eq_refl)
    as (r & w' & Hrun & _ & Hdata & Hsent & _).
  exists r, w'. split; [exact Hrun|]. split; [exact Hdata | exact Hsent].
Defined.





(** * Further properties

    What the code shows beyond the claims of the specification: the bytes of
    a connection and its loop, the effect of one request whatever it is, the
    dictionaries over the whole life of the server, and the handlers one
    after the other. *)

(** ** The stream reader *)

(** [readexactly] on a stream that holds [n] bytes: it returns the first [n]
    of them and keeps the others, however they were cut into chunks. *)
Lemma readexactly_from_enough pend n buf :
  (n <= length (buf ++ concat pend))%nat ->
  exists r',
    readexactly_from n buf pend = (Some (firstn n (buf ++ concat pend)), r')
    /\ stream_bytes r' = skipn n (buf ++ concat pend).
Proof.
  revert buf. induction pend as [|chunk pend IH]; intros buf Hn; cbn [readexactly_from].
  - cbn [concat] in *. rewrite app_nil_r in *.
    apply Nat.leb_le in Hn. rewrite Hn.
    eexists. split; [reflexivity|]. unfold stream_bytes. cbn. apply app_nil_r.
  - destruct (n <=? length buf)%nat eqn:E.
    + apply Nat.leb_le in E. eexists. split.
      * rewrite firstn_app. replace (n - length buf)%nat with 0%nat by lia.
        cbn. rewrite app_nil_r. reflexivity.
      * unfold stream_bytes. cbn [buffer pending].
        rewrite skipn_app. replace (n - length buf)%nat with 0%nat by lia. reflexivity.
    + cbn [concat] in Hn. rewrite app_assoc in Hn.
      destruct (IH (buf ++ chunk) Hn) as (r' & Hrun & Hrest).
      exists r'. cbn [concat]. rewrite app_assoc. split; assumption.
Qed.

(** On a shorter stream it raises. *)
Lemma readexactly_from_short pend n buf :
  (length (buf ++ concat pend) < n)%nat ->
  readexactly_from n buf pend = (None, mkReader [] []).
Proof.
  revert buf. induction pend as [|chunk pend IH]; intros buf Hn; cbn [readexactly_from].
  - cbn [concat] in Hn. rewrite app_nil_r in Hn.
    apply Nat.leb_gt in Hn. rewrite Hn. reflexivity.
  - assert (E : (n <=? length buf)%nat = false).
    { apply Nat.leb_gt. rewrite length_app in Hn. lia. }
    rewrite E. apply IH. cbn [concat] in Hn. rewrite app_assoc in Hn. exact Hn.
Qed.

(** Waiting loses no byte, and the buffer stays empty at the end of the stream
    only. *)
Lemma wait_for_data_bytes pend buf :
  stream_bytes (wait_for_data buf pend) = buf ++ concat pend
  /\ (buffer (wait_for_data buf pend) = [] -> buf ++ concat pend = []).
Proof.
  revert buf. induction pend as [|chunk pend IH]; intros buf.
  - destruct buf; unfold stream_bytes; cbn; rewrite ?app_nil_r; split;
      try reflexivity; try discriminate.
  - destruct buf as [|b buf].
    + cbn [wait_for_data]. destruct (IH chunk) as [H1 H2]. split; [exact H1 | exact H2].
    + cbn. split; [reflexivity | discriminate].
Qed.

(** [read] takes its bytes from the front of the stream, at most [n] of
    them, and none at the end of the stream only. *)
Lemma read_bytes n r :
  let (chunk, r') := read (S n) r in
  chunk ++ stream_bytes r' = stream_bytes r
  /\ (length chunk <= S n)%nat
  /\ (chunk = [] -> stream_bytes r = []).
Proof.
  unfold read.
  destruct (wait_for_data_bytes (pending r) (buffer r)) as [Hbytes Hempty].
  set (r1 := wait_for_data (buffer r) (pending r)) in *.
  fold (stream_bytes r) in Hbytes, Hempty.
  split; [|split].
  - unfold stream_bytes at 1. cbn [buffer pending].
    rewrite app_assoc, firstn_skipn. exact Hbytes.
  - apply firstn_le_length.
  - intros H. apply Hempty. destruct (buffer r1); [reflexivity | discriminate].
Qed.

(** The loop of [receive_message] on a stream that holds the bytes it still
    needs: it takes exactly these. *)
Lemma read_payload_enough fuel len message_bytes r :
  (Z.to_nat (len - Z.of_nat (length message_bytes)) <= fuel)%nat ->
  (Z.to_nat (len - Z.of_nat (length message_bytes)) <= length (stream_bytes r))%nat ->
  exists r',
    read_payload fuel len message_bytes r
    = Some (Some (message_bytes
                  ++ firstn (Z.to_nat (len - Z.of_nat (length message_bytes)))
                       (stream_bytes r)), r')
    /\ stream_bytes r'
       = skipn (Z.to_nat (len - Z.of_nat (length message_bytes))) (stream_bytes r).
Proof.
  revert message_bytes r. induction fuel as [|fuel IH]; intros message_bytes r Hfuel Hbytes.
  - cbn [read_payload].
    destruct (Z.of_nat (length message_bytes) <? len)%Z eqn:E; [apply Z.ltb_lt in E; lia|].
    apply Z.ltb_ge in E.
    replace (Z.to_nat (len - Z.of_nat (length message_bytes))) with 0%nat by lia.
    exists r. cbn. rewrite app_nil_r. split; reflexivity.
  - cbn [read_payload].
    destruct (Z.of_nat (length message_bytes) <? len)%Z eqn:E.
    2:{ apply Z.ltb_ge in E.
        replace (Z.to_nat (len - Z.of_nat (length message_bytes))) with 0%nat by lia.
        exists r. cbn. rewrite app_nil_r. split; reflexivity. }
    apply Z.ltb_lt in E.
    set (need := Z.to_nat (len - Z.of_nat (length message_bytes))) in *.
    assert (Hneed : exists n, need = S n) by (exists (pred need); lia).
    destruct Hneed as [n Hn]. rewrite Hn.
    pose proof (read_bytes n r) as Hread.
    destruct (read (S n) r) as [chunk r1]. destruct Hread as (Hsplit & Hlen & Hend).
    destruct chunk as [|b chunk].
    { specialize (Hend eq_refl). rewrite Hend in Hbytes. cbn in Hbytes. lia. }
    set (c := b :: chunk) in *.
    assert (Hneed' : Z.to_nat (len - Z.of_nat (length (message_bytes ++ c)))
                     = (S n - length c)%nat).
    { rewrite length_app. lia. }
    destruct (IH (message_bytes ++ c) r1) as (r' & Hrun & Hrest).
    { rewrite Hneed'. assert (0 < length c)%nat by (cbn; lia). lia. }
    { rewrite Hneed'. rewrite <- Hsplit, length_app in Hbytes. lia. }
    exists r'. rewrite Hrun, Hneed', Hrest, Hneed'. rewrite <- Hsplit.
    split.
    + rewrite <- app_assoc. rewrite firstn_app.
      rewrite (firstn_all2 c) by lia. reflexivity.
    + rewrite skipn_app. rewrite (skipn_all2 c) by lia. reflexivity.
Qed.

(** On a stream that ends before them it raises. *)
Lemma read_payload_short fuel len message_bytes r :
  (Z.to_nat (len - Z.of_nat (length message_bytes)) <= fuel)%nat ->
  (length (stream_bytes r) < Z.to_nat (len - Z.of_nat (length message_bytes)))%nat ->
  exists r', read_payload fuel len message_bytes r = Some (None, r').
Proof.
  revert message_bytes r. induction fuel as [|fuel IH]; intros message_bytes r Hfuel Hbytes.
  - lia.
  - cbn [read_payload].
    destruct (Z.of_nat (length message_bytes) <? len)%Z eqn:E;
      [apply Z.ltb_lt in E | apply Z.ltb_ge in E; lia].
    set (need := Z.to_nat (len - Z.of_nat (length message_bytes))) in *.
    assert (Hneed : exists n, need = S n) by (exists (pred need); lia).
    destruct Hneed as [n Hn]. rewrite Hn.
    pose proof (read_bytes n r) as Hread.
    destruct (read (S n) r) as [chunk r1]. destruct Hread as (Hsplit & Hlen & Hend).
    destruct chunk as [|b chunk]; [eexists; reflexivity|].
    set (c := b :: chunk) in *.
    assert (Hneed' : Z.to_nat (len - Z.of_nat (length (message_bytes ++ c)))
                     = (S n - length c)%nat).
    { rewrite length_app. lia. }
    rewrite <- Hsplit, length_app in Hbytes.
    assert (0 < length c)%nat by (cbn; lia).
    apply IH; rewrite Hneed'; lia.
Qed.


(** ** The length prefix and the text *)

Lemma firstn_app_exact {A : Type} n (l l' : list A) :
  length l = n -> firstn n (l ++ l') = l.
Proof.
  intros <-. rewrite firstn_app, Nat.sub_diag, firstn_all. cbn. apply app_nil_r.
Qed.

Lemma skipn_app_exact {A : Type} n (l l' : list A) :
  length l = n -> skipn n (l ++ l') = l'.
Proof.
  intros <-. rewrite skipn_app, Nat.sub_diag, skipn_all. reflexivity.
Qed.

Lemma byte_of_Z_value z : Z.of_N (Byte.to_N (byte_of_Z z)) = (z mod 256)%Z.
Proof.
  unfold byte_of_Z.
  assert (Hrange : (0 <= z mod 256 < 256)%Z) by (apply Z.mod_pos_bound; lia).
  destruct (Byte.of_N (Z.to_N (z mod 256))) as [b|] eqn:E.
  - apply Byte.to_of_N in E. rewrite E. lia.
  - apply Byte.of_N_None_iff in E. lia.
Qed.

Lemma int_from_bytes_big_four b3 b2 b1 b0 :
  PyStr.int_from_bytes_big [b3; b2; b1; b0]
  = (((Z.of_N (Byte.to_N b3) * 256 + Z.of_N (Byte.to_N b2)) * 256
      + Z.of_N (Byte.to_N b1)) * 256 + Z.of_N (Byte.to_N b0))%Z.
Proof. unfold PyStr.int_from_bytes_big. cbn [fold_left]. lia. Qed.

(** [int.from_bytes] reads back what [to_bytes(4, 'big')] wrote. *)
Lemma int_bytes_round_trip n length_bytes :
  int_to_bytes4_big n = Some length_bytes ->
  PyStr.int_from_bytes_big length_bytes = n /\ length length_bytes = 4%nat.
Proof.
  unfold int_to_bytes4_big.
  destruct ((0 <=? n) && (n <? 2 ^ 32))%Z eqn:E; [|discriminate].
  apply andb_prop in E. destruct E as [Hlo Hhi].
  apply Z.leb_le in Hlo. apply Z.ltb_lt in Hhi.
  intros H. injection H as <-. split; [|reflexivity].
  rewrite int_from_bytes_big_four, !byte_of_Z_value.
  change (2 ^ 32)%Z with 4294967296%Z in Hhi.
  change (2 ^ 24)%Z with 16777216%Z. change (2 ^ 16)%Z with 65536%Z.
  change (2 ^ 8)%Z with 256%Z.
  Z.div_mod_to_equations. lia.
Qed.

Lemma int_to_bytes4_big_defined n :
  (0 <= n < 2 ^ 32)%Z -> exists length_bytes, int_to_bytes4_big n = Some length_bytes.
Proof.
  intros [Hlo Hhi]. unfold int_to_bytes4_big.
  apply Z.leb_le in Hlo. apply Z.ltb_lt in Hhi. rewrite Hlo, Hhi.
  eexists. reflexivity.
Qed.

Lemma int_from_bytes_big_nonneg bs : (0 <= PyStr.int_from_bytes_big bs)%Z.
Proof.
  unfold PyStr.int_from_bytes_big.
  assert (H : forall acc, (0 <= acc)%Z ->
            (0 <= fold_left (fun a b => (a * 256 + Z.of_N (Byte.to_N b))%Z) bs acc)%Z).
  { induction bs as [|b bs IH]; intros acc Hacc; cbn [fold_left]; [exact Hacc|].
    apply IH. lia. }
  apply H. lia.
Qed.

(** Decoding the bytes of a [str] gives the [str] back. *)
Lemma decode_encode message :
  is_text message = true -> PyStr.decode_utf8 (encode_utf8 message) = Some message.
Proof.
  unfold is_text, PyStr.decode_utf8, encode_utf8. intros ->.
  rewrite string_of_list_byte_of_string. reflexivity.
Qed.

(** ** Frames *)

(** A reader whose stream starts with the frame of a text delivers the text
    and keeps the bytes that follow the frame. *)
Lemma receive_message_frame message frame_bytes rest r :
  is_text message = true ->
  frame message = Some frame_bytes ->
  stream_bytes r = frame_bytes ++ rest ->
  exists r', receive_message r = (message, r') /\ stream_bytes r' = rest.
Proof.
  intros Htext Hframe Hstream.
  unfold frame in Hframe.
  destruct (int_to_bytes4_big (Z.of_nat (length (encode_utf8 message))))
    as [length_bytes|] eqn:Hlen; [|discriminate].
  injection Hframe as <-.
  destruct (int_bytes_round_trip _ _ Hlen) as [Hvalue Hfour].
  unfold stream_bytes in Hstream.
  destruct (readexactly_from_enough (pending r) 4 (buffer r)) as (r1 & Hprefix & Hrest1).
  { rewrite Hstream, !length_app. lia. }
  rewrite Hstream, <- app_assoc in Hprefix, Hrest1.
  rewrite (firstn_app_exact 4 length_bytes _ Hfour) in Hprefix.
  rewrite (skipn_app_exact 4 length_bytes _ Hfour) in Hrest1.
  unfold receive_message, readexactly. rewrite Hprefix, Hvalue.
  set (payload := encode_utf8 message) in *.
  destruct (read_payload_enough (Z.to_nat (Z.of_nat (length payload)))
              (Z.of_nat (length payload)) [] r1)
    as (r' & Hrun & Hrest').
  { cbn [length]. lia. }
  { cbn [length]. rewrite Hrest1, length_app. lia. }
  cbn [length] in Hrun, Hrest'.
  replace (Z.to_nat (Z.of_nat (length payload) - Z.of_nat 0))
    with (length payload) in * by lia.
  rewrite Hrest1 in Hrun, Hrest'.
  rewrite (firstn_app_exact _ payload rest eq_refl) in Hrun. cbn [app] in Hrun.
  rewrite (skipn_app_exact _ payload rest eq_refl) in Hrest'.
  rewrite Hrun. unfold payload. rewrite (decode_encode message Htext).
  exists r'. split; [reflexivity | exact Hrest'].
Qed.

(** A reader whose stream holds the four bytes of a length and the bytes the
    length announces. *)
Lemma receive_message_complete r :
  (4 + PyStr.int_from_bytes_big (firstn 4 (stream_bytes r))
   <= Z.of_nat (length (stream_bytes r)))%Z ->
  exists r',
    receive_message r
    = (match PyStr.decode_utf8
               (firstn (Z.to_nat (PyStr.int_from_bytes_big (firstn 4 (stream_bytes r))))
                  (skipn 4 (stream_bytes r))) with
       | Some text => text
       | None => ""
       end, r')
    /\ stream_bytes r'
       = skipn (4 + Z.to_nat (PyStr.int_from_bytes_big (firstn 4 (stream_bytes r))))
           (stream_bytes r).
Proof.
  set (s := stream_bytes r). set (len := PyStr.int_from_bytes_big (firstn 4 s)).
  intros Hlen.
  pose proof (int_from_bytes_big_nonneg (firstn 4 s)) as Hpos. fold len in Hpos.
  destruct (readexactly_from_enough (pending r) 4 (buffer r)) as (r1 & Hprefix & Hrest1).
  { fold (stream_bytes r). fold s. lia. }
  fold (stream_bytes r) in Hprefix, Hrest1. fold s in Hprefix, Hrest1.
  unfold receive_message, readexactly. rewrite Hprefix. fold len.
  destruct (read_payload_enough (Z.to_nat len) len [] r1) as (r' & Hrun & Hrest').
  { cbn [length]. lia. }
  { cbn [length]. rewrite Hrest1, length_skipn. lia. }
  cbn [length app] in Hrun, Hrest'.
  replace (Z.to_nat (len - Z.of_nat 0)) with (Z.to_nat len) in Hrun, Hrest' by lia.
  rewrite Hrun. rewrite Hrest1 in Hrest'. rewrite Hrest1.
  exists r'. split.
  - destruct (PyStr.decode_utf8 (firstn (Z.to_nat len) (skipn 4 s))); reflexivity.
  - rewrite Hrest', skipn_skipn. f_equal. lia.
Qed.

(** A reader whose stream ends before that. *)
Lemma receive_message_truncated r :
  (Z.of_nat (length (stream_bytes r))
   < 4 + PyStr.int_from_bytes_big (firstn 4 (stream_bytes r)))%Z ->
  fst (receive_message r) = "".
Proof.
  set (s := stream_bytes r). set (len := PyStr.int_from_bytes_big (firstn 4 s)).
  intros Hlen. unfold receive_message, readexactly.
  destruct (Nat.le_gt_cases 4 (length s)) as [Hfour|Hfour].
  - destruct (readexactly_from_enough (pending r) 4 (buffer r)) as (r1 & Hprefix & Hrest1).
    { exact Hfour. }
    fold (stream_bytes r) in Hprefix, Hrest1. fold s in Hprefix, Hrest1.
    rewrite Hprefix. fold len.
    destruct (read_payload_short (Z.to_nat len) len [] r1) as (r' & Hrun).
    { cbn [length]. lia. }
    { cbn [length]. rewrite Hrest1, length_skipn. lia. }
    rewrite Hrun. reflexivity.
  - rewrite (readexactly_from_short (pending r) 4 (buffer r) Hfour). reflexivity.
Qed.

(** Two readers that hold the same bytes deliver the same text, and after a
    text that is not empty they hold the same bytes again. *)
Lemma receive_message_same r1 r2 :
  stream_bytes r1 = stream_bytes r2 ->
  fst (receive_message r1) = fst (receive_message r2)
  /\ (fst (receive_message r1) <> "" ->
      stream_bytes (snd (receive_message r1)) = stream_bytes (snd (receive_message r2))).
Proof.
  intros Hsame.
  destruct (Z.lt_ge_cases
              (Z.of_nat (length (stream_bytes r1)))
              (4 + PyStr.int_from_bytes_big (firstn 4 (stream_bytes r1)))) as [Hcut|Hfull].
  - rewrite (receive_message_truncated r1 Hcut).
    rewrite Hsame in Hcut. rewrite (receive_message_truncated r2 Hcut).
    split; [reflexivity | congruence].
  - destruct (receive_message_complete r1 Hfull) as (r1' & -> & Hrest1).
    rewrite Hsame in Hfull.
    destruct (receive_message_complete r2 Hfull) as (r2' & -> & Hrest2).
    cbn [fst snd]. rewrite Hrest1, Hrest2, Hsame. split; reflexivity.
Qed.


Lemma frames_cons message rest wire :
  frames (message :: rest) = Some wire ->
  exists first others,
    frame message = Some first /\ frames rest = Some others /\ wire = first ++ others.
Proof.
  cbn [frames]. destruct (frame message) as [first|]; [|discriminate].
  destruct (frames rest) as [others|]; [|discriminate].
  intros H. injection H as <-. eauto.
Qed.

(** X1. A text of fewer than 2^32 bytes has a frame, four bytes longer than
    the text. A reader whose stream goes on with this frame, cut into chunks
    in any way, delivers the text to [receive_message] and keeps exactly the
    bytes that follow the frame. *)
Theorem frame_round_trip message :
  is_text message = true ->
  (Z.of_nat (length (encode_utf8 message)) < 2 ^ 32)%Z ->
  exists frame_bytes,
    frame message = Some frame_bytes
    /\ length frame_bytes = (4 + length (encode_utf8 message))%nat
    /\ forall r rest,
         stream_bytes r = frame_bytes ++ rest ->
         exists r', receive_message r = (message, r') /\ stream_bytes r' = rest.
Proof.
  intros Htext Hsize.
  destruct (int_to_bytes4_big_defined (Z.of_nat (length (encode_utf8 message))))
    as [length_bytes Hlen]; [lia|].
  assert (Hframe : frame message = Some (length_bytes ++ encode_utf8 message)).
  { unfold frame. rewrite Hlen. reflexivity. }
  exists (length_bytes ++ encode_utf8 message).
  split; [exact Hframe|]. split.
  - rewrite length_app. destruct (int_bytes_round_trip _ _ Hlen) as [_ ->]. reflexivity.
  - intros r rest Hstream.
    exact (receive_message_frame message _ rest r Htext Hframe Hstream).
Qed.

(** X2. When the stream holds four bytes and the number of bytes they
    announce, [receive_message] returns these bytes decoded, or the empty
    string when they are not UTF-8, and leaves the stream at the byte after
    them, however the bytes arrived. *)
Theorem receive_message_reads_one_frame r :
  (4 + PyStr.int_from_bytes_big (firstn 4 (stream_bytes r))
   <= Z.of_nat (length (stream_bytes r)))%Z ->
  fst (receive_message r)
  = match PyStr.decode_utf8
            (firstn (Z.to_nat (PyStr.int_from_bytes_big (firstn 4 (stream_bytes r))))
               (skipn 4 (stream_bytes r))) with
    | Some text => text
    | None => ""
    end
  /\ stream_bytes (snd (receive_message r))
     = skipn (4 + Z.to_nat (PyStr.int_from_bytes_big (firstn 4 (stream_bytes r))))
         (stream_bytes r).
Proof.
  intros Hlen. destruct (receive_message_complete r Hlen) as (r' & -> & Hrest).
  split; [reflexivity | exact Hrest].
Qed.

Section Loop.
Context {platform : Platform}.

(** The loop of [handle_client] stops at the empty text and handles nothing. *)
Lemma read_loop_stop fuel r rd wr cell w :
  fst (receive_message r) = "" ->
  read_loop (S fuel) r rd wr cell w = Some (cell, w).
Proof.
  intros H. cbn [read_loop]. destruct (receive_message r) as [raw r1].
  cbn [fst] in H. subst raw. reflexivity.
Qed.

(** X3. When the stream ends before the four bytes of a length or before the
    bytes the length announces, or when these bytes are not UTF-8, the loop
    of [handle_client] stops: nothing is handled, what follows in the stream
    is never read, and the clean-up runs. *)
Theorem unreadable_frame_ends_connection r rd wr fuel w :
  (Z.of_nat (length (stream_bytes r))
   < 4 + PyStr.int_from_bytes_big (firstn 4 (stream_bytes r)))%Z
  \/ PyStr.decode_utf8
       (firstn (Z.to_nat (PyStr.int_from_bytes_big (firstn 4 (stream_bytes r))))
          (skipn 4 (stream_bytes r))) = None ->
  (forall current_user,
      read_loop (S fuel) r rd wr current_user w = Some (current_user, w))
  /\ handle_client (S fuel) r rd wr w = Some (cleanup wr None w).
Proof.
  intros Hbroken.
  assert (Hempty : fst (receive_message r) = "").
  { destruct (Z.lt_ge_cases
                (Z.of_nat (length (stream_bytes r)))
                (4 + PyStr.int_from_bytes_big (firstn 4 (stream_bytes r)))) as [Hcut|Hfull].
    - apply receive_message_truncated, Hcut.
    - destruct Hbroken as [Hcut|Hbad]; [lia|].
      destruct (receive_message_complete r Hfull) as (r' & -> & _).
      rewrite Hbad. reflexivity. }
  assert (Hloop : forall current_user,
             read_loop (S fuel) r rd wr current_user w = Some (current_user, w)).
  { intros current_user. apply read_loop_stop, Hempty. }
  split; [exact Hloop|]. unfold handle_client. rewrite Hloop. reflexivity.
Qed.

(** The loop on the frames of some texts. *)
Lemma read_loop_frames messages wire r rd wr fuel :
  Forall (fun message => is_text message = true /\ message <> "") messages ->
  frames messages = Some wire ->
  stream_bytes r = wire ->
  (length messages < fuel)%nat ->
  (forall cell w,
      read_loop fuel r rd wr cell w = Some (handle_all messages rd wr cell w))
  /\ (forall w,
        handle_client fuel r rd wr w
        = Some (cleanup wr (fst (handle_all messages rd wr None w))
                  (snd (handle_all messages rd wr None w)))).
Proof.
  intros Hall Hframes Hstream Hfuel.
  assert (Hloop : forall cell w,
             read_loop fuel r rd wr cell w = Some (handle_all messages rd wr cell w)).
  { revert wire r fuel Hframes Hstream Hfuel.
    induction Hall as [|message rest [Htext Hnonempty] Hrest IH];
      intros wire r fuel Hframes Hstream Hfuel cell w.
    - injection Hframes as <-. destruct fuel as [|fuel]; [cbn in Hfuel; lia|].
      cbn [handle_all]. apply read_loop_stop.
      unfold receive_message, readexactly.
      rewrite (readexactly_from_short (pending r) 4 (buffer r)); [reflexivity|].
      fold (stream_bytes r). rewrite Hstream. cbn. lia.
    - destruct fuel as [|fuel]; [lia|].
      destruct (frames_cons _ _ _ Hframes) as (first & others & Hfirst & Hothers & ->).
      destruct (receive_message_frame message first others r Htext Hfirst Hstream)
        as (r' & Hreceive & Hrest').
      cbn [read_loop handle_all]. rewrite Hreceive.
      destruct message as [|c message]; [congruence|]. cbn [PyStr.truthy negb].
      destruct (handle_raw (String c message) rd wr cell w) as [cell' w'].
      apply (IH others r' fuel Hothers Hrest'). cbn [length] in Hfuel. lia. }
  split; [exact Hloop|].
  intros w. unfold handle_client. rewrite Hloop.
  destruct (handle_all messages rd wr None w) as [cell w']. reflexivity.
Qed.

(** X4. When the stream of a connection is the frames of some texts, none of
    them empty, back to back and cut into chunks in any way, the loop of
    [handle_client] handles exactly these texts, each once and in their
    order, and stops at the end of the stream; [handle_client] then runs the
    clean-up on what they left. *)
Theorem read_loop_handles_frames messages wire r rd wr fuel :
  Forall (fun message => is_text message = true /\ message <> "") messages ->
  frames messages = Some wire ->
  stream_bytes r = wire ->
  (length messages < fuel)%nat ->
  (forall cell w,
      read_loop fuel r rd wr cell w = Some (handle_all messages rd wr cell w))
  /\ (forall w,
        handle_client fuel r rd wr w
        = Some (cleanup wr (fst (handle_all messages rd wr None w))
                  (snd (handle_all messages rd wr None w)))).
Proof. apply read_loop_frames. Qed.


(** X6. How the bytes of a connection are cut into chunks makes no
    difference: two streams of the same bytes leave the server in the same
    state. *)
Theorem chunking_is_irrelevant fuel r1 r2 rd wr w :
  stream_bytes r1 = stream_bytes r2 ->
  handle_client fuel r1 rd wr w = handle_client fuel r2 rd wr w.
Proof.
  intros Hsame. unfold handle_client.
  assert (Hloop : forall fuel r1 r2 cell w,
             stream_bytes r1 = stream_bytes r2 ->
             read_loop fuel r1 rd wr cell w = read_loop fuel r2 rd wr cell w).
  { clear. induction fuel as [|fuel IH]; intros r1 r2 cell w Hsame; [reflexivity|].
    cbn [read_loop].
    destruct (receive_message_same r1 r2 Hsame) as [Htext Hrest].
    destruct (receive_message r1) as [raw1 r1'], (receive_message r2) as [raw2 r2'].
    cbn [fst snd] in Htext, Hrest. subst raw2.
    destruct raw1 as [|c raw]; [reflexivity|]. cbn [PyStr.truthy negb].
    destruct (handle_raw (String c raw) rd wr cell w) as [cell' w'].
    apply IH, Hrest. discriminate. }
  rewrite (Hloop fuel r1 r2 None w Hsame). reflexivity.
Qed.

End Loop.

(** ** The effect of one request *)

Section Effects.
Context {platform : Platform}.

Lemma response_is_response msg_type status data message t :
  status = "success" \/ status = "error" ->
  is_response (response_dict msg_type status data message t).
Proof.
  intros Hstatus. unfold is_response, type_of, status_of, member, response_dict.
  split.
  - exists msg_type. destruct data as [[|item items]|]; reflexivity.
  - destruct Hstatus as [-> | ->]; [left | right];
      destruct data as [[|item items]|]; reflexivity.
Qed.

Lemma response_not_notification m : is_response m -> ~ is_notification m.
Proof.
  intros [[msg_type Htype] _] Hn. unfold is_notification in Hn. rewrite Htype in Hn.
  destruct Hn as [H|[H|H]]; injection H as H;
    repeat (destruct msg_type as [|? msg_type]; cbn in H; try discriminate H;
            injection H as _ H).
Qed.

Lemma broadcast_frames_pushed w sessions online registered t :
  Forall (pushed_from w)
    (broadcast_frames sessions (update_notification online registered t)).
Proof.
  unfold broadcast_frames. apply Forall_forall. intros frame Hin.
  apply in_map_iff in Hin. destruct Hin as [item [<- _]].
  left. right. right. reflexivity.
Qed.

Lemma truthy_not_empty a b :
  negb (PyStr.truthy a) || negb (PyStr.truthy b) = false -> a <> "" /\ b <> "".
Proof. destruct a, b; cbn; intros H; split; congruence. Qed.

Lemma bound_user_some cell user : bound_user cell = Some user -> cell = Some user.
Proof.
  unfold bound_user. destruct (bound cell); [trivial | discriminate].
Qed.


Lemma bound_user_truthy cell user :
  bound_user cell = Some user -> PyStr.truthy user = true.
Proof.
  unfold bound_user, bound. destruct cell as [u|]; [|discriminate].
  destruct (PyStr.truthy u) eqn:E; [|discriminate]. intros H. injection H as <-. exact E.
Qed.

Lemma answers_unchanged rd wr current_user w w' r :
  is_response r ->
  registries w' = registries w ->
  closed w' = closed w ->
  (ticks w < ticks w')%nat ->
  (exists pushed, sent w' = sent w ++ pushed /\ Forall (pushed_from w) pushed) ->
  answers rd wr current_user w current_user w' r.
Proof.
  intros Hr Hreg Hclosed Hticks Hsent. unfold answers.
  split; [exact Hr|]. split; [apply unchanged; [exact Hreg | reflexivity]|].
  split; [exact Hclosed|]. split; [exact Hticks | exact Hsent].
Qed.

Lemma answers_refused rd wr current_user w msg_type message :
  answers rd wr current_user w current_user (with_ticks (S (ticks w)) w)
    (response_dict msg_type "error" None message (clock_reading (ticks w))).
Proof.
  apply answers_unchanged; [apply response_is_response; tauto | reflexivity | reflexivity
                           | cbn; lia |].
  exists []. cbn. rewrite app_nil_r. split; [reflexivity | constructor].
Qed.

Lemma handle_register_effect data rd wr current_user w :
  match handle_register data wr w with
  | (Ok r, w') => answers rd wr current_user w current_user w' r
  | (Raise _, w') => w' = w
  end.
Proof.
  unfold handle_register.
  rewrite bind_field. destruct (fst (field data "username" w)) as [username|]; [|reflexivity].
  rewrite bind_field. destruct (fst (field data "password" w)) as [password|]; [|reflexivity].
  destruct (negb (PyStr.truthy username) || negb (PyStr.truthy password)) eqn:Hblank.
  { rewrite create_response_run. apply answers_refused. }
  apply truthy_not_empty in Hblank. destruct Hblank as [Hname _].
  unfold bind at 1, get_world at 1.
  destruct (PyDict.mem username (users_db w)) eqn:Hreg.
  { rewrite create_response_run. apply answers_refused. }
  unfold bind, time_time, modify. rewrite broadcast_run, create_response_run.
  unfold answers.
  split; [apply response_is_response; tauto|].
  split; [eapply registered; [exact Hname | exact Hreg | reflexivity | reflexivity]|].
  split; [reflexivity|]. split; [cbn; lia|].
  eexists. split; [reflexivity|]. apply broadcast_frames_pushed.
Qed.

Lemma handle_login_effect data rd wr current_user w :
  match handle_login data rd wr current_user w with
  | (Ok (r, current_user'), w') => answers rd wr current_user w current_user' w' r
  | (Raise _, w') => w' = w
  end.
Proof.
  unfold handle_login.
  rewrite bind_field. destruct (fst (field data "username" w)) as [username|]; [|reflexivity].
  rewrite bind_field. destruct (fst (field data "password" w)) as [password|]; [|reflexivity].
  destruct (negb (PyStr.truthy username) || negb (PyStr.truthy password)) eqn:Hblank.
  { unfold bind, ret. rewrite create_response_run. apply answers_refused. }
  apply truthy_not_empty in Hblank. destruct Hblank as [Hname _].
  unfold bind at 1, get_world at 1.
  destruct (PyDict.mem username (users_db w)) eqn:Hreg; cbn [negb].
  2:{ unfold bind, ret. rewrite create_response_run. apply answers_refused. }
  unfold bind at 1, getitem.
  destruct (PyDict.get username (users_db w)) as [u|]; [|reflexivity].
  unfold ret at 1.
  destruct (negb (String.eqb (password_hash u) (hash_password password))).
  { unfold bind, ret. rewrite create_response_run. apply answers_refused. }
  destruct (PyDict.mem username (online_users w)) eqn:Hon.
  { unfold bind, ret. rewrite create_response_run. apply answers_refused. }
  unfold bind, modify, get_world, ret.
  cbn [online_users users_db offline_messages with_online_users].
  destruct (PyDict.mem username (offline_messages w)) eqn:Hq.
  - apply mem_get_some in Hq. destruct Hq as [queued Hq]. rewrite Hq.
    rewrite (for_each_send queued (fun _ => wr) (fun message => message)).
    rewrite broadcast_run, create_response_run.
    unfold answers.
    split; [apply response_is_response; tauto|].
    split; [eapply (logged_in _ _ _ _ _ _ username);
            [exact Hname | exact Hreg | exact Hon | reflexivity | reflexivity]|].
    split; [reflexivity|]. split; [cbn; lia|].
    cbn [sent with_sent with_ticks with_offline_messages with_online_users online_users
         users_db ticks].
    rewrite <- app_assoc. eexists. split; [reflexivity|].
    apply Forall_app. split; [|apply broadcast_frames_pushed].
    apply Forall_forall. intros frame Hin. apply in_map_iff in Hin.
    destruct Hin as [message [<- Hin]]. right. exists username, queued. split; assumption.
  - rewrite broadcast_run, create_response_run.
    unfold answers.
    split; [apply response_is_response; tauto|].
    split.
    { eapply (logged_in _ _ _ _ _ _ username);
        [exact Hname | exact Hreg | exact Hon | | reflexivity].
      unfold registries. cbn. rewrite (del_absent _ _ Hq). reflexivity. }
    split; [reflexivity|]. split; [cbn; lia|].
    eexists. split; [reflexivity|]. apply broadcast_frames_pushed.
Qed.

Lemma handle_private_chat_effect data sender rd wr current_user w :
  bound_user current_user = Some sender ->
  match handle_private_chat data sender w with
  | (Ok r, w') => answers rd wr current_user w current_user w' r
  | (Raise _, w') => w' = w
  end.
Proof.
  intros Hbound. unfold handle_private_chat.
  rewrite bind_field. destruct (fst (field data "to" w)) as [target|]; [|reflexivity].
  rewrite bind_field. destruct (fst (field data "message" w)) as [message|]; [|reflexivity].
  destruct (negb (PyStr.truthy target) || negb (PyStr.truthy message)).
  { rewrite create_response_run. apply answers_refused. }
  destruct (String.eqb target sender).
  { rewrite create_response_run. apply answers_refused. }
  unfold bind at 1, get_world at 1.
  destruct (PyDict.mem target (users_db w)) eqn:Hreg; cbn [negb].
  2:{ rewrite create_response_run. apply answers_refused. }
  unfold bind at 1. rewrite create_notification_run.
  cbn [online_users offline_messages with_ticks].
  destruct (PyDict.mem target (online_users w)) eqn:Hon.
  - apply mem_get_some in Hon. destruct Hon as [session Hs].
    unfold bind, getitem, send_message, modify, ret. cbn [online_users with_ticks].
    rewrite Hs, create_response_run.
    apply answers_unchanged; [apply response_is_response; tauto | reflexivity | reflexivity
                             | cbn; lia |].
    eexists. split; [reflexivity|]. constructor; [|constructor]. left. left. reflexivity.
  - unfold bind, getitem, modify, get_world, ret.
    cbn [online_users offline_messages with_ticks with_offline_messages].
    destruct (PyDict.mem target (offline_messages w)) eqn:Hq; cbn [negb].
    + apply mem_get_some in Hq. destruct Hq as [queue Hq].
      cbn [offline_messages with_ticks]. rewrite Hq, create_response_run.
      unfold answers.
      split; [apply response_is_response; tauto|].
      split.
      { eapply (queued _ _ _ _ _ _ sender target
                  (notification_dict "private_message"
                     [("from", JStr sender); ("message", JStr message)]
                     (clock_reading (ticks w))));
          [exact Hbound | exact Hreg | exact Hon | | | reflexivity].
        - reflexivity.
        - unfold registries, PyDict.get_default. cbn. rewrite Hq. reflexivity. }
      split; [reflexivity|]. split; [cbn; lia|].
      exists []. cbn. rewrite app_nil_r. split; [reflexivity | constructor].
    + cbn [offline_messages with_ticks with_offline_messages].
      rewrite get_set_same, create_response_run.
      unfold answers.
      split; [apply response_is_response; tauto|].
      split.
      { eapply (queued _ _ _ _ _ _ sender target
                  (notification_dict "private_message"
                     [("from", JStr sender); ("message", JStr message)]
                     (clock_reading (ticks w))));
          [exact Hbound | exact Hreg | exact Hon | | | reflexivity].
        - reflexivity.
        - unfold registries, PyDict.get_default. cbn. rewrite set_set.
          apply mem_get_none in Hq. rewrite Hq. reflexivity. }
      split; [reflexivity|]. split; [cbn; lia|].
      exists []. cbn. rewrite app_nil_r. split; [reflexivity | constructor].
Qed.

Lemma handle_group_chat_effect data sender rd wr current_user w :
  match handle_group_chat data sender w with
  | (Ok r, w') => answers rd wr current_user w current_user w' r
  | (Raise _, w') => w' = w
  end.
Proof.
  unfold handle_group_chat.
  rewrite bind_field. destruct (fst (field data "group" w)) as [group_name|]; [|reflexivity].
  rewrite bind_field. destruct (fst (field data "message" w)) as [message|]; [|reflexivity].
  destruct (negb (PyStr.truthy group_name) || negb (PyStr.truthy message)).
  { rewrite create_response_run. apply answers_refused. }
  unfold bind at 1, get_world at 1.
  destruct (PyDict.mem group_name (groups w)); cbn [negb].
  2:{ rewrite create_response_run. apply answers_refused. }
  unfold bind at 1, getitem.
  destruct (PyDict.get group_name (groups w)) as [members|]; [|reflexivity].
  unfold ret at 1.
  destruct (negb (set_mem string_dec sender members)).
  { rewrite create_response_run. apply answers_refused. }
  unfold bind. rewrite create_notification_run, group_chat_loop_run, create_response_run.
  apply answers_unchanged; [apply response_is_response; tauto | reflexivity | reflexivity
                           | cbn; lia |].
  eexists. split; [reflexivity|].
  apply Forall_forall. intros frame Hin. apply in_map_iff in Hin.
  destruct Hin as [member [<- _]]. left. right. left. reflexivity.
Qed.

Lemma handle_create_group_effect data creator rd wr current_user w :
  bound_user current_user = Some creator ->
  match handle_create_group data creator w with
  | (Ok r, w') => answers rd wr current_user w current_user w' r
  | (Raise _, w') => w' = w
  end.
Proof.
  intros Hbound. unfold handle_create_group.
  rewrite bind_field. destruct (fst (field data "group_name" w)) as [group_name|]; [|reflexivity].
  destruct (negb (PyStr.truthy group_name)) eqn:Hblank.
  { rewrite create_response_run. apply answers_refused. }
  unfold bind at 1, get_world at 1.
  destruct (PyDict.mem group_name (groups w)) eqn:Hg.
  { rewrite create_response_run. apply answers_refused. }
  unfold bind, modify. rewrite create_response_run.
  unfold answers.
  split; [apply response_is_response; tauto|].
  split.
  { eapply (group_created _ _ _ _ _ _ group_name creator);
      [exact Hbound | | exact Hg | reflexivity | reflexivity].
    destruct group_name; [discriminate Hblank | discriminate]. }
  split; [reflexivity|]. split; [cbn; lia|].
  exists []. cbn. rewrite app_nil_r. split; [reflexivity | constructor].
Qed.

Lemma handle_join_group_effect data user rd wr current_user w :
  bound_user current_user = Some user ->
  match handle_join_group data user w with
  | (Ok r, w') => answers rd wr current_user w current_user w' r
  | (Raise _, w') => w' = w
  end.
Proof.
  intros Hbound. unfold handle_join_group.
  rewrite bind_field. destruct (fst (field data "group_name" w)) as [group_name|]; [|reflexivity].
  destruct (negb (PyStr.truthy group_name)).
  { rewrite create_response_run. apply answers_refused. }
  unfold bind at 1, get_world at 1.
  destruct (PyDict.mem group_name (groups w)); cbn [negb].
  2:{ rewrite create_response_run. apply answers_refused. }
  unfold bind at 1, getitem.
  destruct (PyDict.get group_name (groups w)) as [members|] eqn:Hg; [|reflexivity].
  unfold ret at 1.
  destruct (set_mem string_dec user members) eqn:Hmem.
  { rewrite create_response_run. apply answers_refused. }
  unfold bind, modify. rewrite create_response_run.
  unfold answers.
  split; [apply response_is_response; tauto|].
  split.
  { eapply (group_joined _ _ _ _ _ _ group_name user members);
      [exact Hbound | exact Hg | exact Hmem | reflexivity | reflexivity]. }
  split; [reflexivity|]. split; [cbn; lia|].
  exists []. cbn. rewrite app_nil_r. split; [reflexivity | constructor].
Qed.

Lemma handle_list_groups_effect data user rd wr current_user w :
  match handle_list_groups data user w with
  | (Ok r, w') => answers rd wr current_user w current_user w' r
  | (Raise _, w') => w' = w
  end.
Proof.
  unfold handle_list_groups, bind, get_world. rewrite create_response_run.
  apply answers_unchanged; [apply response_is_response; tauto | reflexivity | reflexivity
                           | cbn; lia |].
  exists []. cbn. rewrite app_nil_r. split; [reflexivity | constructor].
Qed.

(** A request is answered and has changed the dictionaries in one of the
    seven ways, or has raised before it changed anything. *)
Lemma dispatch_effect message rd wr current_user w :
  match dispatch message rd wr current_user w with
  | (Ok (r, current_user'), w') => answers rd wr current_user w current_user' w' r
  | (Raise _, w') => w' = w
  end.
Proof.
  unfold dispatch, json_get.
  destruct message; try reflexivity.
  unfold bind at 1, ret at 1. unfold bind at 1, ret at 1.
  set (msg_type := PyDict.get_default "type" (JStr "") fields).
  set (data := PyDict.get_default "data" (JObj []) fields).
  destruct (json_eq_str msg_type "register").
  { unfold bind, ret.
    pose proof (handle_register_effect data rd wr current_user w) as H.
    destruct (handle_register data wr w) as [[r|e] w']; exact H. }
  destruct (json_eq_str msg_type "login").
  { apply handle_login_effect. }
  destruct (json_eq_str msg_type "logout").
  { destruct (bound_user current_user) as [user|] eqn:Hbound.
    - unfold bind at 1. rewrite handle_logout_run.
      destruct (PyDict.mem user (online_users w)) eqn:Hon.
      + unfold bind, ret. rewrite create_response_run. unfold answers.
        split; [apply response_is_response; tauto|].
        split; [eapply (logged_out _ _ _ _ _ _ user);
                [exact Hbound | reflexivity | reflexivity]|].
        split; [reflexivity|]. split; [cbn; lia|].
        eexists. split; [reflexivity|]. apply broadcast_frames_pushed.
      + unfold bind, ret. rewrite create_response_run. unfold answers.
        split; [apply response_is_response; tauto|].
        split.
        { eapply (logged_out _ _ _ _ _ _ user); [exact Hbound | | reflexivity].
          unfold registries. cbn. rewrite (del_absent _ _ Hon). reflexivity. }
        split; [reflexivity|]. split; [cbn; lia|].
        exists []. cbn. rewrite app_nil_r. split; [reflexivity | constructor].
    - unfold bind, ret. rewrite create_response_run. apply answers_refused. }
  destruct (bound_user current_user) as [user|] eqn:Hbound.
  2:{ unfold bind, ret. rewrite create_response_run. apply answers_refused. }
  unfold bind, ret.
  assert (Hcase : forall (m : M json),
             match m w with
             | (Ok r, w') => answers rd wr current_user w current_user w' r
             | (Raise _, w') => w' = w
             end ->
             match (let (r, w') := m w in
                    match r with
                    | Ok a => (Ok (a, current_user), w')
                    | Raise e => (Raise e, w')
                    end) with
             | (Ok (r, current_user'), w') => answers rd wr current_user w current_user' w' r
             | (Raise _, w') => w' = w
             end).
  { intros m H. destruct (m w) as [[r|e] w']; exact H. }
  apply Hcase.
  destruct (json_eq_str msg_type "private_chat");
    [apply handle_private_chat_effect, Hbound|].
  destruct (json_eq_str msg_type "group_chat"); [apply handle_group_chat_effect|].
  destruct (json_eq_str msg_type "create_group");
    [apply handle_create_group_effect, Hbound|].
  destruct (json_eq_str msg_type "join_group"); [apply handle_join_group_effect, Hbound|].
  destruct (json_eq_str msg_type "list_groups"); [apply handle_list_groups_effect|].
  rewrite create_response_run. apply answers_refused.
Qed.

(** The inner [try] on any text: the dictionaries changed in one of the seven
    ways, and the last frame sent is the one response, on the connection of
    the request. *)
Lemma handle_raw_effect raw rd wr current_user w :
  let (current_user', w') := handle_raw raw rd wr current_user w in
  transition rd wr current_user w current_user' w'
  /\ closed w' = closed w
  /\ (ticks w < ticks w')%nat
  /\ exists pushed r,
       sent w' = sent w ++ pushed ++ [(wr, r)]
       /\ is_response r
       /\ Forall (pushed_from w) pushed.
Proof.
  unfold handle_raw.
  destruct (json_loads raw) as [message|].
  - pose proof (dispatch_effect message rd wr current_user w) as H.
    destruct (dispatch message rd wr current_user w) as [[[response cell]|e] w'].
    + destruct H as (Hr & Ht & Hclosed & Hticks & pushed & Hsent & Hpushed).
      unfold run, send_message, modify. cbn [snd].
      split.
      { destruct Ht.
        - apply unchanged; assumption.
        - eapply registered; eassumption.
        - eapply logged_in; eassumption.
        - eapply logged_out; eassumption.
        - eapply queued; eassumption.
        - eapply group_created; eassumption.
        - eapply group_joined; eassumption. }
      split; [exact Hclosed|]. split; [exact Hticks|].
      exists pushed, response. cbn [sent with_sent]. rewrite Hsent, <- app_assoc.
      split; [reflexivity|]. split; assumption.
    + subst w'. unfold run, bind, send_message, modify. rewrite create_response_run.
      cbn [snd].
      split; [apply unchanged; reflexivity|].
      split; [reflexivity|]. split; [cbn; lia|].
      eexists [], _. cbn [sent with_sent with_ticks app].
      split; [reflexivity|]. split; [apply response_is_response; tauto | constructor].
  - unfold run, bind, send_message, modify. rewrite create_response_run. cbn [snd].
    split; [apply unchanged; reflexivity|].
    split; [reflexivity|]. split; [cbn; lia|].
    eexists [], _. cbn [sent with_sent with_ticks app].
    split; [reflexivity|]. split; [apply response_is_response; tauto | constructor].
Qed.

Lemma handle_raw_transition raw rd wr current_user w :
  transition rd wr current_user w
    (fst (handle_raw raw rd wr current_user w))
    (snd (handle_raw raw rd wr current_user w)).
Proof.
  pose proof (handle_raw_effect raw rd wr current_user w) as H.
  destruct (handle_raw raw rd wr current_user w) as [current_user' w'].
  exact (proj1 H).
Qed.

Lemma handle_raw_closed raw rd wr current_user w :
  closed (snd (handle_raw raw rd wr current_user w)) = closed w.
Proof.
  pose proof (handle_raw_effect raw rd wr current_user w) as H.
  destruct (handle_raw raw rd wr current_user w) as [current_user' w'].
  exact (proj1 (proj2 H)).
Qed.

(** The [finally] clause logs the user of the cell out, if the cell holds
    one, and changes nothing else in the dictionaries. *)
Lemma cleanup_effect wr current_user w :
  closed (cleanup wr current_user w) = wr :: closed w
  /\ (registries (cleanup wr current_user w) = registries w
      \/ exists user,
           bound_user current_user = Some user
           /\ registries (cleanup wr current_user w)
              = (PyDict.del user (online_users w), users_db w, groups w,
                 offline_messages w)).
Proof.
  unfold cleanup.
  destruct (bound_user current_user) as [user|]; [|split; [reflexivity | left; reflexivity]].
  destruct (PyDict.mem user (online_users w)) eqn:Hon;
    [|split; [reflexivity | left; reflexivity]].
  unfold run. rewrite handle_logout_run, Hon. cbn [snd].
  split; [reflexivity|]. right. exists user. split; reflexivity.
Qed.

Lemma registries_fields w' a b c d :
  registries w' = (a, b, c, d) ->
  online_users w' = a /\ users_db w' = b /\ groups w' = c /\ offline_messages w' = d.
Proof. unfold registries. intros H. injection H as -> -> -> ->. repeat split. Qed.

End Effects.

Ltac fields_of H :=
  apply registries_fields in H;
  let Ho := fresh "Ho" in let Hu := fresh "Hu" in
  let Hg := fresh "Hg" in let Hq := fresh "Hq" in
  destruct H as (Ho & Hu & Hg & Hq).

Section Requests.
Context {platform : Platform}.

(** X7. Whatever text arrives on a connection, and whether it parses or not,
    the server answers it with exactly one response, sent on this connection
    after everything else the request made it send; while the queues hold
    notifications only, all the other frames are notifications. *)
Theorem one_response_per_message raw rd wr current_user w :
  queues_hold_private_messages w ->
  exists pushed r,
    sent (snd (handle_raw raw rd wr current_user w)) = sent w ++ pushed ++ [(wr, r)]
    /\ is_response r
    /\ ~ is_notification r
    /\ Forall (fun frame => is_notification (snd frame) /\ ~ is_response (snd frame)) pushed.
Proof.
  intros Hqueues.
  pose proof (handle_raw_effect raw rd wr current_user w) as H.
  destruct (handle_raw raw rd wr current_user w) as [current_user' w'].
  destruct H as (_ & _ & _ & pushed & r & Hsent & Hr & Hpushed).
  exists pushed, r. cbn [snd].
  split; [exact Hsent|]. split; [exact Hr|].
  split; [apply response_not_notification, Hr|].
  apply Forall_forall. intros frame Hin.
  assert (Hn : is_notification (snd frame)).
  { destruct (proj1 (Forall_forall _ _) Hpushed frame Hin)
      as [Hn | (username & queue & Hget & Hmessage)]; [exact Hn|].
    left. exact (Hqueues username queue (snd frame) Hget Hmessage). }
  split; [exact Hn|]. intros Hresp. exact (response_not_notification _ Hresp Hn).
Qed.




End Requests.

(** ** The server as a whole *)

Section DictKeys.
Context {V : Type}.

Lemma In_keys_set x k (v : V) d :
  In x (PyDict.keys (PyDict.set k v d)) -> x = k \/ In x (PyDict.keys d).
Proof.
  intros H. apply mem_In_keys in H. apply mem_set_cases in H.
  destruct H as [->|H]; [left; reflexivity | right; apply mem_In_keys, H].
Qed.

Lemma In_keys_del x k (d : PyDict.dict V) :
  In x (PyDict.keys (PyDict.del k d)) -> In x (PyDict.keys d).
Proof.
  intros H. apply mem_In_keys in H. apply mem_del_cases in H. apply mem_In_keys, H.
Qed.



End DictKeys.

Section Whole.
Context {platform : Platform}.

Lemma not_closed connection w :
  existsb (Nat.eqb connection) (closed w) = false -> ~ In connection (closed w).
Proof.
  intros H Hin.
  assert (Ht : existsb (Nat.eqb connection) (closed w) = true).
  { apply existsb_exists. exists connection. split; [exact Hin | apply Nat.eqb_refl]. }
  congruence.
Qed.

Lemma set_cell_same connection cell cs : set_cell connection cell cs connection = cell.
Proof. unfold set_cell. rewrite Nat.eqb_refl. reflexivity. Qed.


(** What holds at the start and is kept by every round holds throughout. *)
Lemma serve_invariant (I : cells -> world -> Prop) :
  (forall e cs w, I cs w -> I (fst (serve_event e cs w)) (snd (serve_event e cs w))) ->
  forall events cs w, I cs w -> I (fst (serve events cs w)) (snd (serve events cs w)).
Proof.
  intros Hstep events. induction events as [|e rest IH]; intros cs w HI; [exact HI|].
  cbn [serve]. specialize (Hstep e cs w HI).
  destruct (serve_event e cs w) as [cs' w']. apply IH. exact Hstep.
Qed.

(** A round is a request or a clean-up, or nothing at all. *)
Lemma serve_event_cases (I : cells -> world -> Prop) e cs w :
  I cs w ->
  (forall connection raw,
      ~ In connection (closed w) ->
      I (set_cell connection
           (fst (handle_raw raw connection connection (cs connection) w)) cs)
        (snd (handle_raw raw connection connection (cs connection) w))) ->
  (forall connection,
      ~ In connection (closed w) ->
      I cs (cleanup connection (cs connection) w)) ->
  I (fst (serve_event e cs w)) (snd (serve_event e cs w)).
Proof.
  intros HI Hraw Hclean. destruct e as [connection raw]. unfold serve_event.
  destruct (existsb (Nat.eqb connection) (closed w)) eqn:Hclosed; [exact HI|].
  apply not_closed in Hclosed.
  destruct (negb (PyStr.truthy raw)).
  - apply Hclean, Hclosed.
  - specialize (Hraw connection raw Hclosed).
    destruct (handle_raw raw connection connection (cs connection) w) as [cell' w'].
    exact Hraw.
Qed.

Lemma serve_app events events' cs w :
  serve (events ++ events') cs w
  = serve events' (fst (serve events cs w)) (snd (serve events cs w)).
Proof.
  revert cs w. induction events as [|e rest IH]; intros cs w; [reflexivity|].
  cbn [app serve]. destruct (serve_event e cs w) as [cs' w']. apply IH.
Qed.

(** The rounds of one connection that no other connection interrupts. *)
Lemma serve_one_connection connection messages cs w :
  ~ In connection (closed w) ->
  Forall (fun message => message <> "") messages ->
  snd (serve (map (pair connection) messages) cs w)
  = snd (handle_all messages connection connection (cs connection) w)
  /\ fst (serve (map (pair connection) messages) cs w) connection
     = fst (handle_all messages connection connection (cs connection) w)
  /\ closed (snd (serve (map (pair connection) messages) cs w)) = closed w.
Proof.
  intros Hopen Hall. revert cs w Hopen.
  induction Hall as [|message rest Hmessage Hrest IH]; intros cs w Hopen.
  - cbn. repeat split.
  - cbn [map serve handle_all]. unfold serve_event.
    destruct (existsb (Nat.eqb connection) (closed w)) eqn:Hclosed.
    { apply existsb_exists in Hclosed. destruct Hclosed as (c & Hin & Heq).
      apply Nat.eqb_eq in Heq. subst c. contradiction. }
    apply truthy_true in Hmessage. rewrite Hmessage. cbn [negb].
    pose proof (handle_raw_closed message connection connection (cs connection) w) as Hsame.
    destruct (handle_raw message connection connection (cs connection) w) as [cell' w'].
    cbn [snd] in Hsame.
    destruct (IH (set_cell connection cell' cs) w') as (H1 & H2 & H3).
    { rewrite Hsame. exact Hopen. }
    rewrite set_cell_same in H1, H2.
    split; [exact H1 | split; [exact H2 | rewrite H3; exact Hsame]].
Qed.

(** The bytes of such a connection have the effect of the rounds of its
    messages, the last of them the round that ends it. *)
Lemma connection_alone messages wire r connection fuel cs w :
  Forall (fun message => is_text message = true /\ message <> "") messages ->
  frames messages = Some wire ->
  stream_bytes r = wire ->
  (length messages < fuel)%nat ->
  ~ In connection (closed w) ->
  cs connection = None ->
  handle_client fuel r connection connection w
  = Some (snd (serve (map (pair connection) messages ++ [(connection, "")]) cs w)).
Proof.
  intros Hall Hframes Hstream Hfuel Hopen Hcell.
  destruct (read_loop_frames messages wire r connection connection fuel
              Hall Hframes Hstream Hfuel) as [_ ->].
  f_equal. rewrite serve_app.
  destruct (serve_one_connection connection messages cs w Hopen) as (Hw & Hc & Hclosed).
  { apply Forall_forall. intros m Hm.
    exact (proj2 (proj1 (Forall_forall _ _) Hall m Hm)). }
  rewrite Hcell in Hw, Hc.
  cbn [serve serve_event]. rewrite Hclosed.
  destruct (existsb (Nat.eqb connection) (closed w)) eqn:E.
  { apply existsb_exists in E. destruct E as (c & Hin & Heq).
    apply Nat.eqb_eq in Heq. subst c. contradiction. }
  cbn [PyStr.truthy negb snd]. rewrite Hw, Hc. reflexivity.
Qed.

Lemma transition_users rd wr cell w cell' w' username u :
  transition rd wr cell w cell' w' ->
  PyDict.get username (users_db w) = Some u ->
  PyDict.get username (users_db w') = Some u.
Proof.
  intros Ht Hget.
  destruct Ht as [Hreg _ | name u' _ Hfresh Hreg _ | name _ _ _ Hreg _ | user _ Hreg _
                 | sender target n _ _ _ _ Hreg _ | g user _ _ _ Hreg _
                 | g user ms _ _ _ Hreg _];
    fields_of Hreg; rewrite Hu; try exact Hget.
  rewrite get_set_other; [exact Hget|].
  intros ->. apply mem_get_none in Hfresh. congruence.
Qed.

Lemma transition_groups rd wr cell w cell' w' group_name members :
  transition rd wr cell w cell' w' ->
  PyDict.get group_name (groups w) = Some members ->
  exists members',
    PyDict.get group_name (groups w') = Some members' /\ incl members members'.
Proof.
  intros Ht Hget.
  destruct Ht as [Hreg _ | name u' _ Hfresh Hreg _ | name _ _ _ Hreg _ | user _ Hreg _
                 | sender target n _ _ _ _ Hreg _ | g user _ _ Hfresh Hreg _
                 | g user ms _ Hms _ Hreg _];
    fields_of Hreg; rewrite Hg;
    try (exists members; split; [exact Hget | apply incl_refl]).
  - exists members. split; [|apply incl_refl].
    rewrite get_set_other; [exact Hget|].
    intros ->. apply mem_get_none in Hfresh. congruence.
  - destruct (string_dec g group_name) as [->|Hne].
    + rewrite get_set_same. eexists. split; [reflexivity|].
      rewrite Hms in Hget. injection Hget as ->.
      intros x Hx. apply set_add_intro1. exact Hx.
    + exists members. split; [|apply incl_refl]. rewrite get_set_other; assumption.
Qed.

Lemma transition_names rd wr cell w cell' w' :
  transition rd wr cell w cell' w' -> names_not_empty w -> names_not_empty w'.
Proof.
  intros Ht (Hon & Hdb & Hgr & Hqu). unfold names_not_empty.
  destruct Ht as [Hreg _ | name u' Hname Hfresh Hreg _ | name Hname _ _ Hreg _
                 | user _ Hreg _ | sender target n _ Htarget _ _ Hreg _
                 | g user _ Hname Hfresh Hreg _ | g user ms _ Hms _ Hreg _];
    fields_of Hreg; rewrite Ho, Hu, Hg, Hq; repeat split; try assumption.
  - intros H. apply In_keys_set in H. destruct H as [H|H]; [congruence | tauto].
  - intros H. apply In_keys_set in H. destruct H as [H|H]; [congruence | tauto].
  - intros H. apply In_keys_del in H. tauto.
  - intros H. apply In_keys_del in H. tauto.
  - intros H. apply In_keys_set in H. destruct H as [H|H]; [|tauto].
    subst target. apply mem_In_keys in Htarget. tauto.
  - intros H. apply In_keys_set in H. destruct H as [H|H]; [congruence | tauto].
  - intros H. apply In_keys_set in H. destruct H as [H|H]; [|tauto].
    subst g. apply Hgr. apply mem_In_keys, mem_get_some. eauto.
Qed.


Lemma cleanup_users_groups wr cell w :
  users_db (cleanup wr cell w) = users_db w /\ groups (cleanup wr cell w) = groups w
  /\ offline_messages (cleanup wr cell w) = offline_messages w.
Proof.
  destruct (cleanup_effect wr cell w) as [_ [H | (user & _ & H)]]; fields_of H; auto.
Qed.

Lemma cleanup_names wr cell w : names_not_empty w -> names_not_empty (cleanup wr cell w).
Proof.
  intros (Hon & Hdb & Hgr & Hqu). unfold names_not_empty.
  destruct (cleanup_effect wr cell w) as [_ [H | (user & _ & H)]];
    fields_of H; rewrite Ho, Hu, Hg, Hq; repeat split; try assumption.
  intros H. apply In_keys_del in H. tauto.
Qed.




(** X13. An account is for ever: whatever happens afterwards, a registered
    user stays registered, with the same password hash and the same time of
    registration. *)
Theorem accounts_are_permanent events cs w username u :
  PyDict.get username (users_db w) = Some u ->
  PyDict.get username (users_db (snd (serve events cs w))) = Some u.
Proof.
  intros Hget.
  apply (serve_invariant (fun _ w => PyDict.get username (users_db w) = Some u));
    [|exact Hget].
  clear. intros e cs w Hget.
  apply (serve_event_cases (fun _ w => PyDict.get username (users_db w) = Some u)).
  - exact Hget.
  - intros connection raw _.
    exact (transition_users _ _ _ _ _ _ _ _
             (handle_raw_transition raw connection connection (cs connection) w) Hget).
  - intros connection _.
    destruct (cleanup_users_groups connection (cs connection) w) as (-> & _). exact Hget.
Qed.

(** X14. So is membership: whatever happens afterwards, a group stays and a
    member of it stays a member. *)
Theorem membership_is_permanent events cs w group_name members user :
  PyDict.get group_name (groups w) = Some members ->
  In user members ->
  exists members',
    PyDict.get group_name (groups (snd (serve events cs w))) = Some members'
    /\ In user members'.
Proof.
  intros Hget Hin.
  apply (serve_invariant
           (fun _ w => exists members',
                PyDict.get group_name (groups w) = Some members' /\ In user members')).
  - clear. intros e cs w (members & Hget & Hin).
    apply (serve_event_cases
             (fun _ w => exists members',
                  PyDict.get group_name (groups w) = Some members' /\ In user members')).
    + exists members. split; assumption.
    + intros connection raw _.
      destruct (transition_groups _ _ _ _ _ _ _ _
                  (handle_raw_transition raw connection connection (cs connection) w) Hget)
        as (members' & Hget' & Hincl).
      exists members'. split; [exact Hget' | apply Hincl, Hin].
    + intros connection _.
      destruct (cleanup_users_groups connection (cs connection) w) as (_ & -> & _).
      exists members. split; assumption.
  - exists members. split; assumption.
Qed.

(** X15. No user and no group ever gets the empty name: the keys of the four
    dictionaries are never the empty string. *)
Theorem names_never_empty events cs w :
  names_not_empty w -> names_not_empty (snd (serve events cs w)).
Proof.
  intros Hw. apply (serve_invariant (fun _ w => names_not_empty w)); [|exact Hw].
  clear. intros e cs w Hw. apply (serve_event_cases (fun _ w => names_not_empty w)).
  - exact Hw.
  - intros connection raw _.
    exact (transition_names _ _ _ _ _ _
             (handle_raw_transition raw connection connection (cs connection) w) Hw).
  - intros connection _. apply cleanup_names, Hw.
Qed.


End Whole.

(** ** The handlers, one after the other *)

Section Compositions.
Context {platform : Platform}.





(** X21. list_groups never fails, whatever its data, and changes nothing; it
    answers with the names of all groups and, as my_groups, with the names of
    exactly the groups the user is a member of. *)
Theorem list_groups_answer data user w :
  exists r mine,
    handle_list_groups data user w = (Ok r, with_ticks (S (ticks w)) w)
    /\ status_of r = Some (JStr "success")
    /\ member "data" r
       = Some (JObj [("my_groups", JArr (map JStr mine));
                     ("all_groups", JArr (map JStr (PyDict.keys (groups w))))])
    /\ (forall group_name,
          In group_name mine
          <-> exists members, In (group_name, members) (groups w) /\ In user members)
    /\ incl mine (PyDict.keys (groups w)).
Proof.
  exists (response_dict "list_groups" "success"
            (Some [("my_groups",
                    JArr (map JStr
                            (map fst (filter (fun item => set_mem string_dec user (snd item))
                                        (groups w)))));
                   ("all_groups", JArr (map JStr (PyDict.keys (groups w))))])
            "" (clock_reading (ticks w))),
    (map fst (filter (fun item => set_mem string_dec user (snd item)) (groups w))).
  split; [reflexivity|]. split; [reflexivity|]. split; [reflexivity|]. split.
  - intros group_name. rewrite in_map_iff. split.
    + intros ([g members] & <- & Hin). apply filter_In in Hin. destruct Hin as [Hin Hmem].
      exists members. split; [exact Hin | exact (set_mem_correct1 _ _ _ Hmem)].
    + intros (members & Hin & Huser). exists (group_name, members). split; [reflexivity|].
      apply filter_In. split; [exact Hin | exact (set_mem_correct2 _ _ _ Huser)].
  - intros group_name Hin. apply in_map_iff in Hin. destruct Hin as (item & <- & Hin).
    apply filter_In in Hin. unfold PyDict.keys. apply in_map, Hin.
Qed.


(** X23. A private message for a user who is logged in on an open connection
    is sent to this very connection, and the handler sends nothing else. *)
Theorem private_message_reaches_connection cs connection target sender to text w :
  well_formed w ->
  sessions_owned cs w ->
  ~ In connection (closed w) ->
  bound_user (cs connection) = Some target ->
  PyStr.strip to = target ->
  sender <> target ->
  PyStr.strip text <> "" ->
  exists r,
    handle_private_chat (private_chat_data to text) sender w
    = (Ok r,
       with_sent
         (sent w ++ [(connection,
                      private_message sender (PyStr.strip text) (clock_reading (ticks w)))])
         (with_ticks (S (S (ticks w))) w))
    /\ status_of r = Some (JStr "success")
    /\ message_of r = Some (JStr "消息已发送").
Proof.
  intros Hw Hcs Hopen Hbound Hto Hsender Htext.
  pose proof (Hcs connection target Hopen Hbound) as Hsession.
  assert (Hon : PyDict.mem target (online_users w) = true).
  { apply mem_get_some. eauto. }
  pose proof (sessions_registered w Hw target Hon) as Hreg.
  pose proof (bound_user_truthy _ _ Hbound) as Htarget.
  apply truthy_true in Htext.
  pose proof (handle_private_chat_run [("to", JStr to); ("message", JStr text)]
                to text sender w eq_refl eq_refl) as Hrun.
  cbv zeta in Hrun. rewrite Hto, Htarget, Htext in Hrun. cbn [negb orb] in Hrun.
  destruct (String.eqb target sender) eqn:Eself;
    [apply String.eqb_eq in Eself; congruence|].
  rewrite Hreg, Hsession in Hrun. cbn [negb snd] in Hrun.
  eexists. split; [exact Hrun|]. split; reflexivity.
Qed.

End Compositions.

(** * The further properties on the examples *)

(** The worlds of the examples are states of the server. *)
Lemma bind_well_formed {A B : Type} (m : M A) (k : A -> M B) w :
  well_formed (snd (m w)) ->
  (forall a w1, well_formed w1 -> well_formed (snd (k a w1))) ->
  well_formed (snd (bind m k w)).
Proof.
  unfold bind. intros Hm Hk. destruct (m w) as [[a|e] w1]; cbn [snd] in *;
    [apply Hk, Hm | exact Hm].
Qed.

Lemma alice_online_well_formed : well_formed Demo.alice_online.
Proof.
  unfold Demo.alice_online, run. apply handle_login_well_formed.
  unfold Demo.registered, run.
  apply bind_well_formed; [apply handle_register_well_formed, initial_world_well_formed|].
  intros _ w1 H1. apply bind_well_formed; [apply handle_register_well_formed, H1|].
  intros _ w2 H2. apply handle_register_well_formed, H2.
Qed.

Lemma alice_online_sessions_owned :
  sessions_owned (set_cell 1 (Some "alice") no_cells) Demo.alice_online.
Proof.
  intros connection user _ Hbound. unfold set_cell, no_cells in Hbound.
  destruct (Nat.eqb connection 1) eqn:E; [|discriminate Hbound].
  apply Nat.eqb_eq in E. subst connection. injection Hbound as <-. reflexivity.
Qed.

Lemma alice_online_queues : queues_hold_private_messages Demo.alice_online.
Proof. intros username queue message Hget. discriminate Hget. Qed.

Lemma with_team_names : names_not_empty Demo.with_team.
Proof.
  repeat split; intros H; vm_compute in H;
    repeat (destruct H as [H|H]; [discriminate H|]); exact H.
Qed.

(** X1: the frame of the text of an empty JSON object. *)
Lemma frame_round_trip_witness :
  exists frame_bytes,
    frame "{}" = Some frame_bytes
    /\ length frame_bytes = 6%nat
    /\ forall r rest,
         stream_bytes r = frame_bytes ++ rest ->
         exists r', receive_message r = ("{}", r') /\ stream_bytes r' = rest.
Proof. exact (frame_round_trip "{}" eq_refl eq_refl). Defined.

(** X2: the same frame and one more byte, in four chunks. *)
Lemma receive_message_reads_one_frame_witness :
  fst (receive_message (mkReader [x00] [[x00; x00]; [x02; x7b]; [x7d; x00]]%byte)) = "{}"
  /\ stream_bytes
       (snd (receive_message (mkReader [x00] [[x00; x00]; [x02; x7b]; [x7d; x00]]%byte)))
     = [x00]%byte.
Proof.
  exact (receive_message_reads_one_frame
           (mkReader [x00] [[x00; x00]; [x02; x7b]; [x7d; x00]]%byte)
           ltac:(vm_compute; discriminate)).
Defined.

(** X3: a length of five and one byte of payload. *)
Lemma unreadable_frame_ends_connection_witness :
  handle_client (platform := Demo.platform) 1
    (mkReader [x00; x00] [[x00; x05]; [x7b]]%byte) 1 1 Demo.registered
  = Some (cleanup (platform := Demo.platform) 1 None Demo.registered).
Proof.
  exact (proj2 (unreadable_frame_ends_connection (platform := Demo.platform)
                  (mkReader [x00; x00] [[x00; x05]; [x7b]]%byte) 1 1 0 Demo.registered
                  (or_introl eq_refl))).
Defined.

(** X4: the frames of two texts in four chunks. *)
Lemma read_loop_handles_frames_witness :
  handle_client (platform := Demo.platform) 3
    (mkReader [x00] [[x00; x00; x02; x7b]; [x7d; x00; x00; x00]; [x02; x5b; x5d]]%byte)
    1 1 Demo.registered
  = Some (cleanup (platform := Demo.platform) 1
            (fst (handle_all (platform := Demo.platform) ["{}"; "[]"] 1 1 None
                    Demo.registered))
            (snd (handle_all (platform := Demo.platform) ["{}"; "[]"] 1 1 None
                    Demo.registered))).
Proof.
  exact (proj2 (read_loop_handles_frames (platform := Demo.platform) ["{}"; "[]"]
                  [x00; x00; x00; x02; x7b; x7d; x00; x00; x00; x02; x5b; x5d]%byte
                  (mkReader [x00]
                     [[x00; x00; x02; x7b]; [x7d; x00; x00; x00]; [x02; x5b; x5d]]%byte)
                  1 1 3 ltac:(repeat constructor; discriminate) eq_refl eq_refl (le_n 3))
           Demo.registered).
Defined.


(** X6: one frame in one chunk and in four. *)
Lemma chunking_is_irrelevant_witness :
  handle_client (platform := Demo.platform) 3
    (mkReader [] [[x00; x00; x00; x02; x7b; x7d]]%byte) 1 1 Demo.registered
  = handle_client (platform := Demo.platform) 3
      (mkReader [x00] [[x00; x00]; [x02; x7b]; [x7d]]%byte) 1 1 Demo.registered.
Proof.
  exact (chunking_is_irrelevant (platform := Demo.platform) 3
           (mkReader [] [[x00; x00; x00; x02; x7b; x7d]]%byte)
           (mkReader [x00] [[x00; x00]; [x02; x7b]; [x7d]]%byte) 1 1 Demo.registered
           eq_refl).
Defined.

(** X7: an empty JSON object on the connection 2, which is not logged in. *)
Lemma one_response_per_message_witness :
  exists pushed r,
    sent (snd (handle_raw (platform := Demo.platform) "{}" 2 2 None Demo.alice_online))
    = sent Demo.alice_online ++ pushed ++ [(2, r)]
    /\ is_response r
    /\ ~ is_notification r
    /\ Forall (fun frame => is_notification (snd frame) /\ ~ is_response (snd frame)) pushed.
Proof.
  exact (one_response_per_message (platform := Demo.platform) "{}" 2 2 None
           Demo.alice_online alice_online_queues).
Defined.





(** X13: the account of alice. *)
Lemma accounts_are_permanent_witness :
  PyDict.get "alice"
    (users_db
       (snd (serve (platform := Demo.platform) [(1, "{}"); (2, "[]"); (1, "")]
               (set_cell 1 (Some "alice") no_cells) Demo.alice_online)))
  = Some (mkUser (Demo.sha256 "p1") (Demo.clock 0)).
Proof.
  exact (accounts_are_permanent (platform := Demo.platform)
           [(1, "{}"); (2, "[]"); (1, "")] (set_cell 1 (Some "alice") no_cells)
           Demo.alice_online "alice" (mkUser (Demo.sha256 "p1") (Demo.clock 0)) eq_refl).
Defined.

(** X14: bob in the group team, while the three connections end. *)
Lemma membership_is_permanent_witness :
  exists members',
    PyDict.get "team"
      (groups
         (snd (serve (platform := Demo.platform) [(1, ""); (2, ""); (3, "")]
                 (set_cell 2 (Some "bob") no_cells) Demo.with_team)))
    = Some members'
    /\ In "bob" members'.
Proof.
  exact (membership_is_permanent (platform := Demo.platform)
           [(1, ""); (2, ""); (3, "")] (set_cell 2 (Some "bob") no_cells) Demo.with_team
           "team" ["alice"; "bob"] "bob" eq_refl (or_intror (or_introl eq_refl))).
Defined.

(** X15: the names of the examples, while bob leaves. *)
Lemma names_never_empty_witness :
  names_not_empty
    (snd (serve (platform := Demo.platform) [(1, "{}"); (2, ""); (3, "[]")]
            (set_cell 2 (Some "bob") no_cells) Demo.with_team)).
Proof.
  exact (names_never_empty (platform := Demo.platform) [(1, "{}"); (2, ""); (3, "[]")]
           (set_cell 2 (Some "bob") no_cells) Demo.with_team with_team_names).
Defined.







(** X23: bob writes to alice, who is logged in on the connection 1. *)
Lemma private_message_reaches_connection_witness :
  exists r,
    handle_private_chat (platform := Demo.platform) (private_chat_data " alice " "hi") "bob"
      Demo.alice_online
    = (Ok r,
       with_sent
         (sent Demo.alice_online ++ [(1, private_message "bob" "hi" (Demo.clock 11))])
         (with_ticks 13 Demo.alice_online))
    /\ status_of r = Some (JStr "success")
    /\ message_of r = Some (JStr "消息已发送").
Proof.
  exact (private_message_reaches_connection (platform := Demo.platform)
           (set_cell 1 (Some "alice") no_cells) 1 "alice" "bob" " alice " "hi"
           Demo.alice_online alice_online_well_formed alice_online_sessions_owned
           ltac:(intros []) eq_refl eq_refl
           ltac:(discriminate) ltac:(vm_compute; discriminate)).
Defined.
